(** * Passkey validator: WebAuthn-to-blockchain signature bridge

    A shallow embedding of [src/app/passkeys/toWebAuthnKey.ts] and
    [src/app/passkeys/toPasskeyValidator.ts].

    - JavaScript strings are [string] (code units below 256, which is what
      [atob] produces and what hex, base64 and JSON text use);
    - [Uint8Array] values are [list byte];
    - a viem [Hex] value is the string it is in the source (["0x..."]);
    - [bigint] is [Z];
    - asynchronous code is a program tree [Prog] whose nodes are the calls
      that leave the module (fetch, the authenticator callback, the chain
      client); a thrown exception or rejected promise is the [Throw] leaf. *)

From Stdlib Require Import ZArith NArith List String Ascii Bool Lia.
From Stdlib.Strings Require Import Byte.
From Stdlib Require Import DecimalString.
From ExtLib Require Import Structures.Monad Structures.MonadExc.
Import ListNotations.
Import MonadNotation.
Local Open Scope monad_scope.
Local Open Scope string_scope.
Local Open Scope Z_scope.
Set Warnings "-register-all".

(** ** Exceptions *)

Inductive JsError : Type :=
| Error (msg : string)                       (* new Error(msg) *)
| TypeError (msg : string)                   (* raised by the language itself *)
| SignTransactionNotSupportedBySmartAccount  (* permissionless/accounts *)
| InvalidCharacterError                      (* atob on a malformed input *)
| ViemError (name : string)                  (* errors raised inside viem *)
| Rejected (reason : string).                (* rejection of an outside call *)

Inductive Result (A : Type) : Type :=
| Ok (a : A)
| Err (e : JsError).
Arguments Ok {A} a.
Arguments Err {A} e.

Definition bindR {A B} (r : Result A) (f : A -> Result B) : Result B :=
  match r with Ok a => f a | Err e => Err e end.

(** The names the specification gives to the failures of the bridge. *)
Definition LoginNotVerified : JsError := Error "Login not verified".
Definition RegistrationNotVerified : JsError := Error "Registration not verified".
Definition MissingPublicKey : JsError :=
  Error "No public key returned from registration credential".
Definition MissingCredentialId : JsError :=
  Error "No credential id returned from registration credential".
Definition TypeMismatch : JsError := Error "Unsupported message format".
Definition SigningModeUnsupported : JsError :=
  SignTransactionNotSupportedBySmartAccount.

(** ** JavaScript values (the untyped JSON payloads of the passkey server) *)

Inductive JsValue : Type :=
| JUndefined
| JNull
| JBool (b : bool)
| JNum (n : Z)
| JStr (s : string)
| JArr (items : list JsValue)
| JObj (fields : list (string * JsValue)).

(** ToBoolean. *)
Definition truthy (v : JsValue) : bool :=
  match v with
  | JUndefined | JNull => false
  | JBool b => b
  | JNum n => negb (n =? 0)
  | JStr s => negb (String.eqb s EmptyString)
  | JArr _ | JObj _ => true
  end.

Fixpoint lookup_field (k : string) (fs : list (string * JsValue)) : JsValue :=
  match fs with
  | [] => JUndefined
  | (k', v) :: rest => if String.eqb k k' then v else lookup_field k rest
  end.

(** [v.k] for an own data property [k]: reading a property of [null] or
    [undefined] throws, any other value without the property gives
    [undefined]. *)
Definition get_prop (v : JsValue) (k : string) : Result JsValue :=
  match v with
  | JUndefined | JNull => Err (TypeError "Cannot read properties of null or undefined")
  | JObj fs => Ok (lookup_field k fs)
  | _ => Ok JUndefined
  end.

(** ** Bytes and hex strings *)

Definition Hex := string.

Definition hexDigit (n : N) : ascii :=
  match n with
  | 0 => "0" | 1 => "1" | 2 => "2" | 3 => "3" | 4 => "4" | 5 => "5"
  | 6 => "6" | 7 => "7" | 8 => "8" | 9 => "9" | 10 => "a" | 11 => "b"
  | 12 => "c" | 13 => "d" | 14 => "e" | _ => "f"
  end%N%char.

Definition hexVal (c : ascii) : option N :=
  let n := N_of_ascii c in
  (if (48 <=? n) && (n <=? 57) then Some (n - 48)
   else if (97 <=? n) && (n <=? 102) then Some (n - 87)
   else if (65 <=? n) && (n <=? 70) then Some (n - 55)
   else None)%N.

Definition isHexString (s : string) : bool :=
  forallb (fun c => match hexVal c with Some _ => true | None => false end)
          (list_ascii_of_string s).

Definition byteToHex (b : byte) : string :=
  String (hexDigit (Byte.to_N b / 16)%N)
    (String (hexDigit (Byte.to_N b mod 16)%N) EmptyString).

Fixpoint hexOfBytes (bs : list byte) : string :=
  match bs with
  | [] => EmptyString
  | b :: rest => byteToHex b ++ hexOfBytes rest
  end.

(** viem [bytesToHex]. *)
Definition bytesToHex (bs : list byte) : Hex := "0x" ++ hexOfBytes bs.

Fixpoint bytesOfHex (s : string) : option (list byte) :=
  match s with
  | EmptyString => Some []
  | String hi (String lo rest) =>
      match hexVal hi, hexVal lo, bytesOfHex rest with
      | Some h, Some l, Some bs =>
          match Byte.of_N (16 * h + l)%N with
          | Some b => Some (b :: bs)
          | None => None
          end
      | _, _, _ => None
      end
  | String _ EmptyString => None
  end.

(** [s.startsWith(p)] *)
Fixpoint startsWith (s p : string) {struct p} : bool :=
  match p, s with
  | EmptyString, _ => true
  | String c p', String d s' => Ascii.eqb c d && startsWith s' p'
  | String _ _, EmptyString => false
  end.

(** [s.slice(n)] for [0 <= n]. *)
Definition slice_from (n : nat) (s : string) : string :=
  String.substring n (String.length s - n) s.

(** viem [hexToBytes] on a "0x" string; an odd number of digits is padded
    with a leading zero digit, a non-digit throws. *)
Definition hexToBytes (h : Hex) : Result (list byte) :=
  let body := slice_from 2 h in
  let body := if Nat.even (String.length body) then body else String "0" body in
  match bytesOfHex body with
  | Some bs => Ok bs
  | None => Err (ViemError "InvalidHexValue")
  end.

Definition byte_of_N (n : N) : byte :=
  match Byte.of_N (n mod 256)%N with Some b => b | None => x00 end.

(** ** Base64 *)

Module Base64.

(** Value of a character of the standard alphabet. *)
Definition sextet (c : ascii) : option N :=
  let n := N_of_ascii c in
  (if (65 <=? n) && (n <=? 90) then Some (n - 65)
   else if (97 <=? n) && (n <=? 122) then Some (n - 71)
   else if (48 <=? n) && (n <=? 57) then Some (n + 4)
   else if n =? 43 then Some 62
   else if n =? 47 then Some 63
   else None)%N.

Fixpoint sextets (cs : list ascii) : option (list N) :=
  match cs with
  | [] => Some []
  | c :: rest =>
      match sextet c, sextets rest with
      | Some v, Some vs => Some (v :: vs)
      | _, _ => None
      end
  end.

Fixpoint decode_groups (vs : list N) : list byte :=
  match vs with
  | a :: b :: c :: d :: rest =>
      byte_of_N (a * 4 + b / 16) :: byte_of_N (b * 16 + c / 4)
        :: byte_of_N (c * 64 + d) :: decode_groups rest
  | [a; b; c] => [byte_of_N (a * 4 + b / 16); byte_of_N (b * 16 + c / 4)]
  | [a; b] => [byte_of_N (a * 4 + b / 16)]
  | _ => []
  end%N.

Definition is_ascii_whitespace (c : ascii) : bool :=
  let n := N_of_ascii c in
  ((n =? 9) || (n =? 10) || (n =? 12) || (n =? 13) || (n =? 32))%N.

(** Drops up to two trailing "=" of a reversed character list. *)
Definition strip_padding_rev (rev_cs : list ascii) : list ascii :=
  match rev_cs with
  | "="%char :: "="%char :: rest => rest
  | "="%char :: rest => rest
  | _ => rev_cs
  end.

(** The forgiving-base64 decode of the HTML standard. *)
Definition forgiving_decode (s : string) : option (list byte) :=
  let cs := filter (fun c => negb (is_ascii_whitespace c)) (list_ascii_of_string s) in
  let cs := if (Nat.modulo (List.length cs) 4 =? 0)%nat
            then rev (strip_padding_rev (rev cs)) else cs in
  if (Nat.modulo (List.length cs) 4 =? 1)%nat then None
  else match sextets cs with
       | Some vs => Some (decode_groups vs)
       | None => None
       end.

End Base64.

(** The global [atob]: the decoded bytes as a binary string. *)
Definition atob (s : string) : Result string :=
  match Base64.forgiving_decode s with
  | Some bs => Ok (string_of_list_ascii (map ascii_of_byte bs))
  | None => Err InvalidCharacterError
  end.

(** [TextEncoder.encode] on a string of code units below 256: UTF-8. *)
Definition utf8_char (c : ascii) : list byte :=
  let n := N_of_ascii c in
  (if n <? 128 then [byte_of_N n]
   else [byte_of_N (192 + n / 64); byte_of_N (128 + n mod 64)])%N.

Definition utf8 (s : string) : list byte :=
  flat_map utf8_char (list_ascii_of_string s).

(** ** ABI encoding (viem [encodeAbiParameters])

    For the parameter types the two source files use.  A [bytes] or
    [bytes32] value is given as a hex string, as in viem; here a string that
    is not hexadecimal is refused, where viem would pad it as it is. *)

Module Abi.

Inductive Value : Type :=
| Uint256 (n : Z)
| Bool (b : bool)
| Bytes (h : Hex)
| Str (s : string)
| Bytes32 (h : Hex)
| Tuple (components : list Value).

(** Big-endian bytes of [n], [len] of them. *)
Fixpoint be_bytes (len : nat) (n : Z) : list byte :=
  match len with
  | O => []
  | S len' => be_bytes len' (n / 256) ++ [byte_of_N (Z.to_N (n mod 256))]
  end.

Definition word (n : Z) : list byte := be_bytes 32 n.

Definition pad_right (bs : list byte) : list byte :=
  bs ++ repeat x00 (Nat.modulo (32 - Nat.modulo (List.length bs) 32) 32).

Definition encode_dynamic_bytes (bs : list byte) : list byte :=
  word (Z.of_nat (List.length bs)) ++ pad_right bs.

(** Head and tail layout of a parameter list: a dynamic parameter leaves
    its offset in the head and its encoding in the tail. *)
Definition layout (prepared : list (bool * list byte)) : list byte :=
  let static_size :=
    fold_left (fun (acc : nat) (p : bool * list byte) =>
                 (acc + if fst p then 32 else List.length (snd p))%nat)
              prepared O in
  let step (st : list byte * list byte) (p : bool * list byte) :=
    let '(head, tail) := st in
    if fst p
    then ((head ++ word (Z.of_nat (static_size + List.length tail)))%list,
          (tail ++ snd p)%list)
    else ((head ++ snd p)%list, tail) in
  let '(head, tail) := fold_left step prepared (@nil byte, @nil byte) in
  head ++ tail.

Fixpoint sequence {A} (rs : list (Result A)) : Result (list A) :=
  match rs with
  | [] => Ok []
  | r :: rest =>
      bindR r (fun a => bindR (sequence rest) (fun l => Ok (a :: l)))
  end.

Fixpoint prepare (v : Value) : Result (bool * list byte) :=
  match v with
  | Uint256 n =>
      if (0 <=? n) && (n <? 2 ^ 256) then Ok (false, word n)
      else Err (ViemError "IntegerOutOfRangeError")
  | Bool b => Ok (false, word (if b then 1 else 0))
  | Bytes h => bindR (hexToBytes h) (fun bs => Ok (true, encode_dynamic_bytes bs))
  | Str s => Ok (true, encode_dynamic_bytes (utf8 s))
  | Bytes32 h =>
      bindR (hexToBytes h) (fun bs =>
        if (List.length bs =? 32)%nat then Ok (false, bs)
        else Err (ViemError "AbiEncodingBytesSizeMismatchError"))
  | Tuple vs =>
      bindR (sequence (map prepare vs)) (fun ps =>
        Ok (existsb fst ps, layout ps))
  end.

Definition encodeAbiParameters (values : list Value) : Result Hex :=
  bindR (sequence (map prepare values)) (fun ps => Ok (bytesToHex (layout ps))).

End Abi.

(** ** Programs: the calls that leave the module *)

(** The [init] argument of [fetch]; [body] holds the value handed to
    [JSON.stringify]. *)
Record RequestInit : Type := {
  method : string;
  headers : list (string * string);
  body : option JsValue
}.

(** @simplewebauthn/typescript-types *)
Record AuthenticatorAssertionResponseJSON : Type := {
  clientDataJSON : string;
  authenticatorData : string;
  signature : string
}.

Record AuthenticationResponseJSON : Type := {
  auth_id : string;
  auth_response : AuthenticatorAssertionResponseJSON
}.

Record RegistrationResponseJSON : Type := {
  reg_id : string;
  reg_clientDataJSON : string;
  reg_attestationObject : string
}.

Definition authenticationToJs (c : AuthenticationResponseJSON) : JsValue :=
  JObj [("id", JStr (auth_id c));
        ("response",
         JObj [("clientDataJSON", JStr (clientDataJSON (auth_response c)));
               ("authenticatorData", JStr (authenticatorData (auth_response c)));
               ("signature", JStr (signature (auth_response c)))])].

Definition registrationToJs (c : RegistrationResponseJSON) : JsValue :=
  JObj [("id", JStr (reg_id c));
        ("response",
         JObj [("clientDataJSON", JStr (reg_clientDataJSON c));
               ("attestationObject", JStr (reg_attestationObject c))])].

(** The function handed over as [signWithAuthenticator], or the
    [startAuthentication] of @simplewebauthn/browser imported on demand. *)
Inductive Authenticator : Type :=
| Injected (name : string)
| BrowserStartAuthentication.

(** The viem public client. *)
Record Client : Type := { transport : string }.

Inductive Prog (A : Type) : Type :=
| Ret (a : A)
| Throw (e : JsError)
  (* await (await fetch(url, init)).json() *)
| FetchJson (url : string) (init : RequestInit) (k : JsValue -> Prog A)
  (* await signWithAuthenticator(options), in login mode and when signing *)
| Authenticate (f : Authenticator) (options : JsValue)
               (k : AuthenticationResponseJSON -> Prog A)
  (* await signWithAuthenticator(options), in register mode *)
| Register (f : Authenticator) (options : JsValue)
           (k : RegistrationResponseJSON -> Prog A)
  (* await getChainId(client) *)
| GetChainId (client : Client) (k : Z -> Prog A)
  (* console.log(v) *)
| ConsoleLog (v : JsValue) (k : Prog A).
Arguments Ret {A} a.
Arguments Throw {A} e.
Arguments FetchJson {A} url init k.
Arguments Authenticate {A} f options k.
Arguments Register {A} f options k.
Arguments GetChainId {A} client k.
Arguments ConsoleLog {A} v k.

Fixpoint bindP {A B} (p : Prog A) (f : A -> Prog B) : Prog B :=
  match p with
  | Ret a => f a
  | Throw e => Throw e
  | FetchJson url init k => FetchJson url init (fun v => bindP (k v) f)
  | Authenticate a o k => Authenticate a o (fun c => bindP (k c) f)
  | Register a o k => Register a o (fun c => bindP (k c) f)
  | GetChainId c k => GetChainId c (fun n => bindP (k n) f)
  | ConsoleLog v k => ConsoleLog v (bindP k f)
  end.

#[global] Instance Monad_Prog : Monad Prog :=
  {| ret := @Ret; bind := @bindP |}.

(** A synchronous computation that may throw, inside a program. *)
Definition lift {A} (r : Result A) : Prog A :=
  match r with Ok a => Ret a | Err e => Throw e end.

Definition fetchJson (url : string) (init : RequestInit) : Prog JsValue :=
  FetchJson url init Ret.
Definition callAuthenticator (f : Authenticator) (o : JsValue) :
  Prog AuthenticationResponseJSON := Authenticate f o Ret.
Definition callRegistrar (f : Authenticator) (o : JsValue) :
  Prog RegistrationResponseJSON := Register f o Ret.
Definition getChainId (c : Client) : Prog Z := GetChainId c Ret.
Definition consoleLog (v : JsValue) : Prog unit := ConsoleLog v (Ret tt).

(** *** Running a program against the outside world *)

Inductive Event : Type :=
| EvFetch (url : string) (init : RequestInit) (answer : Result JsValue)
| EvAuthenticate (f : Authenticator) (options : JsValue)
                 (answer : Result AuthenticationResponseJSON)
| EvRegister (f : Authenticator) (options : JsValue)
             (answer : Result RegistrationResponseJSON)
| EvGetChainId (client : Client) (answer : Result Z)
| EvLog (v : JsValue).

(** The passkey server, the authenticator and the chain: each answers a call
    knowing the calls made so far, with a value or a rejection. *)
Record World : Type := {
  on_fetch : list Event -> string -> RequestInit -> Result JsValue;
  on_authenticate :
    list Event -> Authenticator -> JsValue -> Result AuthenticationResponseJSON;
  on_register :
    list Event -> Authenticator -> JsValue -> Result RegistrationResponseJSON;
  on_getChainId : list Event -> Client -> Result Z
}.

(** [run w p past] is the outcome of [p] and the calls made, oldest first. *)
Fixpoint run {A} (w : World) (p : Prog A) (past : list Event)
  : Result A * list Event :=
  match p with
  | Ret a => (Ok a, past)
  | Throw e => (Err e, past)
  | FetchJson url init k =>
      let answer := on_fetch w past url init in
      let past' := (past ++ [EvFetch url init answer])%list in
      match answer with
      | Ok v => run w (k v) past'
      | Err e => (Err e, past')
      end
  | Authenticate f o k =>
      let answer := on_authenticate w past f o in
      let past' := (past ++ [EvAuthenticate f o answer])%list in
      match answer with
      | Ok c => run w (k c) past'
      | Err e => (Err e, past')
      end
  | Register f o k =>
      let answer := on_register w past f o in
      let past' := (past ++ [EvRegister f o answer])%list in
      match answer with
      | Ok c => run w (k c) past'
      | Err e => (Err e, past')
      end
  | GetChainId c k =>
      let answer := on_getChainId w past c in
      let past' := (past ++ [EvGetChainId c answer])%list in
      match answer with
      | Ok n => run w (k n) past'
      | Err e => (Err e, past')
      end
  | ConsoleLog v k => run w k (past ++ [EvLog v])%list
  end.

Definition outcome {A} (w : World) (p : Prog A) : Result A := fst (run w p []).
Definition calls {A} (w : World) (p : Prog A) : list Event := snd (run w p []).

(** ** What the two modules import *)

Definition Address := Hex.

(** [./utils]: the record behind [serializePasskeyValidatorData]. *)
Module Serialized.
Record Data : Type := {
  passkeyServerUrl : string;
  credentials : string;
  entryPoint : Address;
  validatorAddress : Address;
  pubKeyX : Z;
  pubKeyY : Z;
  credId : string;
  authenticatorIdHash : Hex
}.
End Serialized.

(** The functions the two source files import and do not define: library
    code (noble, viem, permissionless), the global [BigInt], and the helpers
    of [./utils], a file of the repository that is not part of the sources
    embedded here.  Every one of them may throw. *)
Class Externals : Type := {
  (* @noble/hashes, behind viem's keccak256 *)
  keccak_256 : list byte -> list byte;
  (* the global BigInt applied to a server-supplied value *)
  BigInt : JsValue -> Result Z;
  (* viem *)
  getTypesForEIP712Domain : JsValue -> JsValue;
  validateTypedData : JsValue -> Result unit;
  hashTypedData : JsValue -> Result Hex;
  (* permissionless *)
  getUserOperationHash : JsValue -> Address -> Z -> Result Hex;
  (* ./utils *)
  b64ToBytes : string -> Result (list byte);
  hexStringToUint8Array : string -> Result (list byte);
  base64FromArrayBuffer : list byte -> bool -> Result string;
  (* the [beforeType] field of the result of findQuoteIndices *)
  findQuoteIndices : string -> Result Z;
  (* the DER or raw signature parser inside parseAndNormalizeSig *)
  parseSignature : Hex -> Result (Z * Z);
  (* the chain ids isRIP7212SupportedNetwork answers true for *)
  rip7212Networks : list Z;
  getValidatorAddress : Address -> Address;
  serializePasskeyValidatorData : Serialized.Data -> string;
  deserializePasskeyValidatorData : string -> Result Serialized.Data
}.

Module Utils.
Section Utils.
Context {ext : Externals}.

(** Modelled from the spec: [uint8ArrayToHexString] of ./utils is missing
    from the sources; the bytes are hex-encoded for viem, whose hex
    strings start with "0x". *)
Definition uint8ArrayToHexString (bs : list byte) : Hex := bytesToHex bs.

(** Order of the P-256 group. *)
Definition curveOrder : Z :=
  0xFFFFFFFF00000000FFFFFFFFFFFFFFFFBCE6FAADA7179E84F3B9CAC2FC632551.

(** Modelled from the spec: the normalisation step of
    [parseAndNormalizeSig], which is missing from the sources: an [s]
    greater than half the curve order is replaced with [curveOrder - s]. *)
Definition normalizeS (s : Z) : Z :=
  if s >? curveOrder / 2 then curveOrder - s else s.

(** Modelled from the spec: [parseAndNormalizeSig] of ./utils is missing
    from the sources; it parses the signature into [(r, s)] and
    normalises [s]. *)
Definition parseAndNormalizeSig (sig : Hex) : Result (Z * Z) :=
  bindR (parseSignature sig) (fun rs => Ok (fst rs, normalizeS (snd rs))).

(** Modelled from the spec: [isRIP7212SupportedNetwork] of ./utils is
    missing from the sources; membership in a static list of chain ids. *)
Definition isRIP7212SupportedNetwork (chainId : Z) : bool :=
  existsb (Z.eqb chainId) rip7212Networks.

End Utils.
End Utils.

(** viem [keccak256] on a hex string; the source only hands it the result
    of [uint8ArrayToHexString], which starts with "0x". *)
Definition keccak256 {ext : Externals} (value : Hex) : Result Hex :=
  if startsWith value "0x"
  then bindR (hexToBytes value) (fun bs => Ok (bytesToHex (keccak_256 bs)))
  else Err (ViemError "keccak256: not a hex string").

(** ** toWebAuthnKey.ts *)

Module ToWebAuthnKey.
Section ToWebAuthnKey.
Context {ext : Externals}.
Import Utils.

Inductive WebAuthnMode : Type :=
| ModeRegister   (* "register" *)
| ModeLogin.     (* "login" *)

Record WebAuthnKey : Type := {
  pubX : Z;
  pubY : Z;
  credId : string;
  authenticatorIdHash : Hex
}.

Record WebAuthnAccountParams : Type := {
  passkeyName : string;
  passkeyServerUrl : string;
  webAuthnKey : option WebAuthnKey;
  mode : WebAuthnMode;
  signWithAuthenticator : Authenticator
}.

(** The object literal returned by [loginOrRegisterWithWebAuthn]; the
    coordinates are whatever the server sent. *)
Record CeremonyResult : Type := {
  publicKeyX : JsValue;
  publicKeyY : JsValue;
  ceremonyCredId : string
}.

Definition jsonHeaders : list (string * string) :=
  [("Content-Type", "application/json")].

Definition loginOrRegisterWithWebAuthn (p : WebAuthnAccountParams)
  : Prog CeremonyResult :=
  keys <-
    match mode p with
    | ModeLogin =>
        (* Get login options *)
        loginOptions <-
          fetchJson (passkeyServerUrl p ++ "/api/auth/start")
            {| method := "POST"; headers := jsonHeaders; body := None |} ;;
        (* Start authentication (login) *)
        options <- lift (get_prop loginOptions "options") ;;
        loginCred <- callAuthenticator (signWithAuthenticator p) options ;;
        let credId := auth_id loginCred in
        (* Verify authentication *)
        requestId <- lift (get_prop loginOptions "requestId") ;;
        loginVerifyResult <-
          fetchJson (passkeyServerUrl p ++ "/api/auth/complete")
            {| method := "POST"; headers := jsonHeaders;
               body := Some (JObj [("requestId", requestId);
                                   ("authenticationResponse",
                                    authenticationToJs loginCred)]) |} ;;
        consoleLog loginVerifyResult ;;
        if negb (truthy loginVerifyResult)
        then Throw (Error "Login not verified")
        else
          accessToken <- lift (get_prop loginVerifyResult "accessToken") ;;
          if negb (truthy accessToken)
          then Throw (Error "Login not verified")
          else
            (* Import the key *)
            x <- lift (get_prop loginVerifyResult "publicKeyX") ;;
            y <- lift (get_prop loginVerifyResult "publicKeyY") ;;
            ret (x, y, credId)
    | ModeRegister =>
        (* Get registration options *)
        registerOptions <-
          fetchJson (passkeyServerUrl p ++ "/api/users/register/start")
            {| method := "POST"; headers := jsonHeaders;
               body := Some (JObj [("username", JStr (passkeyName p))]) |} ;;
        (* Start registration *)
        options <- lift (get_prop registerOptions "options") ;;
        registerCred <- callRegistrar (signWithAuthenticator p) options ;;
        let credId := reg_id registerCred in
        (* Verify registration *)
        requestId <- lift (get_prop registerOptions "requestId") ;;
        registerVerifyResult <-
          fetchJson (passkeyServerUrl p ++ "/api/users/register/complete")
            {| method := "POST"; headers := jsonHeaders;
               body := Some (JObj [("registrationResponse",
                                    registrationToJs registerCred);
                                   ("requestId", requestId)]) |} ;;
        verified <- lift (get_prop registerVerifyResult "verified") ;;
        if negb (truthy verified)
        then Throw (Error "Registration not verified")
        else
          (* Import the key *)
          x <- lift (get_prop registerVerifyResult "publicKeyX") ;;
          y <- lift (get_prop registerVerifyResult "publicKeyY") ;;
          ret (x, y, credId)
    end ;;
  let '(x, y, credId) := keys in
  if negb (truthy x) || negb (truthy y)
  then Throw (Error "No public key returned from registration credential")
  else if negb (truthy (JStr credId))
  then Throw (Error "No credential id returned from registration credential")
  else ret {| publicKeyX := x; publicKeyY := y; ceremonyCredId := credId |}.

(** The key built from a ceremony result, the same object literal in the
    login and the register branch of [toWebAuthnKey]. *)
Definition keyOfCeremony (c : CeremonyResult) : Result WebAuthnKey :=
  bindR (BigInt (publicKeyX c)) (fun x =>
  bindR (BigInt (publicKeyY c)) (fun y =>
  bindR (b64ToBytes (ceremonyCredId c)) (fun idBytes =>
  bindR (keccak256 (uint8ArrayToHexString idBytes)) (fun h =>
  Ok {| pubX := x; pubY := y; credId := ceremonyCredId c;
        authenticatorIdHash := h |})))).

Definition toWebAuthnKey (p : WebAuthnAccountParams) : Prog WebAuthnKey :=
  match webAuthnKey p with
  | Some k => ret k
  | None =>
      match mode p with
      | ModeLogin =>
          c <- loginOrRegisterWithWebAuthn p ;;
          lift (keyOfCeremony c)
      | ModeRegister =>
          c <- loginOrRegisterWithWebAuthn p ;;
          lift (keyOfCeremony c)
      end
  end.

End ToWebAuthnKey.
End ToWebAuthnKey.

(** ** toPasskeyValidator.ts *)

(** Rewrites each apostrophe into a double quote, to write JSON text. *)
Definition json_text (s : string) : string :=
  string_of_list_ascii
    (map (fun c => if Ascii.eqb c "'"%char then ascii_of_nat 34 else c)
         (list_ascii_of_string s)).

Module ToPasskeyValidator.
Section ToPasskeyValidator.
Context {ext : Externals}.
Import Utils.
Import ToWebAuthnKey.

(** viem [SignableMessage]: a string, or an object whose [raw] is a hex
    string or a byte array; [raw] holds whatever the object carries under
    that name, if anything. *)
Inductive RawField : Type :=
| RawValue (v : JsValue)
| RawBytes (bs : list byte).   (* a Uint8Array *)

Inductive SignableMessage : Type :=
| MsgString (s : string)
| MsgObject (raw : option RawField).

(** [Uint8Array.prototype.toString]: the elements in decimal, joined
    with commas. *)
Definition uint8ArrayToString (bs : list byte) : string :=
  String.concat ","
    (map (fun b => NilZero.string_of_uint (N.to_uint (Byte.to_N b))) bs).

(** The [messageContent] chosen by the if-chain at the head of
    [signMessageUsingWebAuthn]. *)
Definition messageContent (message : SignableMessage) : Result string :=
  match message with
  | MsgString s => Ok s                              (* message is a string *)
  | MsgObject (Some (RawValue (JStr s))) => Ok s     (* message.raw is a Hex string *)
  | MsgObject (Some (RawBytes bs)) => Ok (uint8ArrayToString bs)
  | _ => Err (Error "Unsupported message format")
  end.

(** remove 0x prefix if present *)
Definition formatMessage (messageContent : string) : string :=
  if startsWith messageContent "0x" then slice_from 2 messageContent
  else messageContent.

Record PublicKeyCredentialDescriptorJSON : Type := {
  descriptor_id : string;
  descriptor_type : string
}.

Definition descriptorToJs (d : PublicKeyCredentialDescriptorJSON) : JsValue :=
  JObj [("id", JStr (descriptor_id d)); ("type", JStr (descriptor_type d))].

Definition assertionOptions
  (challenge : string)
  (allowCredentials : option (list PublicKeyCredentialDescriptorJSON))
  : JsValue :=
  JObj [("challenge", JStr challenge);
        ("allowCredentials",
         match allowCredentials with
         | Some ds => JArr (map descriptorToJs ds)
         | None => JUndefined
         end);
        ("userVerification", JStr "required")].

(** The values handed to [encodeAbiParameters] for a signature. *)
Definition signatureTuple
  (authenticatorData : Hex) (clientDataJSON : string)
  (responseTypeLocation r s : Z) (usePrecompiled : bool) : list Abi.Value :=
  [Abi.Bytes authenticatorData; Abi.Str clientDataJSON;
   Abi.Uint256 responseTypeLocation; Abi.Uint256 r; Abi.Uint256 s;
   Abi.Bool usePrecompiled].

(** What follows the authenticator's answer in
    [signMessageUsingWebAuthn]. *)
Definition encodeAssertion (chainId : Z) (cred : AuthenticationResponseJSON)
  : Result Hex :=
  (* get authenticator data *)
  bindR (b64ToBytes (authenticatorData (auth_response cred))) (fun adBytes =>
  let authenticatorDataHex := uint8ArrayToHexString adBytes in
  (* get client data JSON *)
  bindR (atob (clientDataJSON (auth_response cred))) (fun clientDataJSON =>
  (* get challenge and response type location *)
  bindR (findQuoteIndices clientDataJSON) (fun beforeType =>
  (* get signature r,s *)
  bindR (b64ToBytes (signature (auth_response cred))) (fun sigBytes =>
  let signatureHex := uint8ArrayToHexString sigBytes in
  bindR (parseAndNormalizeSig signatureHex) (fun rs =>
  (* encode signature; BigInt(r) and BigInt(s) leave a bigint as it is *)
  Abi.encodeAbiParameters
    (signatureTuple authenticatorDataHex clientDataJSON beforeType
       (fst rs) (snd rs) (isRIP7212SupportedNetwork chainId))))))).

Definition signMessageUsingWebAuthn
  (message : SignableMessage)
  (passkeyServerUrl : string)   (* Deprecated *)
  (chainId : Z)
  (allowCredentials : option (list PublicKeyCredentialDescriptorJSON))
  (signWithAuthenticator : option Authenticator)
  : Prog Hex :=
  messageContent <- lift (messageContent message) ;;
  let formattedMessage := formatMessage messageContent in
  bytes <- lift (hexStringToUint8Array formattedMessage) ;;
  challenge <- lift (base64FromArrayBuffer bytes true) ;;
  (* prepare assertion options *)
  let options := assertionOptions challenge allowCredentials in
  (* start authentication (signing) *)
  cred <-
    match signWithAuthenticator with
    | Some f => callAuthenticator f options
    | None => callAuthenticator BrowserStartAuthentication options
    end ;;
  lift (encodeAssertion chainId cred).

Record KernelValidator : Type := {
  (* ...account *)
  signMessage : SignableMessage -> Prog Hex;
  signTransaction : JsValue -> JsValue -> Prog Hex;
  signTypedData : JsValue -> Prog Hex;
  validatorType : string;
  address : Address;
  source : string;
  getIdentifier : unit -> Address;
  getEnableData : unit -> Prog Hex;
  getNonceKey : option Address -> option Z -> Prog Z;
  signUserOperation : JsValue -> Prog Hex;
  getDummySignature : unit -> Prog Hex;
  isEnabled : Address -> Hex -> Prog bool;
  getSerializedData : unit -> string
}.

(** Fields of [src] laid over [target], as an object spread does. *)
Fixpoint set_field (k : string) (v : JsValue) (fs : list (string * JsValue))
  : list (string * JsValue) :=
  match fs with
  | [] => [(k, v)]
  | (k', v') :: rest =>
      if String.eqb k k' then (k, v) :: rest else (k', v') :: set_field k v rest
  end.

Definition spread (target : list (string * JsValue)) (src : JsValue)
  : list (string * JsValue) :=
  match src with
  | JObj fs => fold_left (fun acc kv => set_field (fst kv) (snd kv) acc) fs target
  | _ => target
  end.

(** The [signTypedData] both constructors give to [toAccount]; viem's
    [signMessage] action hands the message to the local account. *)
Definition signTypedDataWith (accountSignMessage : SignableMessage -> Prog Hex)
  (typedData : JsValue) : Prog Hex :=
  domain <- lift (get_prop typedData "domain") ;;
  message <- lift (get_prop typedData "message") ;;
  primaryType <- lift (get_prop typedData "primaryType") ;;
  typedTypes <- lift (get_prop typedData "types") ;;
  let types :=
    JObj (spread [("EIP712Domain",
                   getTypesForEIP712Domain (JObj [("domain", domain)]))]
                 typedTypes) in
  lift (validateTypedData
          (JObj [("domain", domain); ("message", message);
                 ("primaryType", primaryType); ("types", types)])) ;;
  hash <- lift (hashTypedData typedData) ;;
  accountSignMessage (MsgString hash).

Definition signUserOperationWith
  (accountSignMessage : SignableMessage -> Prog Hex)
  (entryPointAddress : Address) (chainId : Z) (userOperation : JsValue)
  : Prog Hex :=
  hash <- lift (getUserOperationHash
                  (JObj (spread (spread [] userOperation)
                                (JObj [("signature", JStr "0x")])))
                  entryPointAddress chainId) ;;
  accountSignMessage (MsgObject (Some (RawValue (JStr hash)))).

Definition enableData (x y : Z) (authenticatorIdHash : Hex) : Result Hex :=
  Abi.encodeAbiParameters
    [Abi.Tuple [Abi.Uint256 x; Abi.Uint256 y]; Abi.Bytes32 authenticatorIdHash].

Definition dummyAuthenticatorData : Hex :=
  "0x49960de5880e8c687434170f6476605b8fe4aeb9a28632c7995cf3ba831d97631d00000000".
Definition dummyClientDataJSON : string :=
  json_text "{'type':'webauthn.get','challenge':'tbxXNFS9X_4Byr1cMwqKrIGB-_30a0QhZ6y7ucM0BOE','origin':'http://localhost:3000','crossOrigin':false}".
Definition dummyR : Z :=
  44941127272049826721201904734628716258498742255959991581049806490182030242267.
Definition dummyS : Z :=
  9910254599581058084911561569808925251374718953855182016200087235935345969636.

Record ValidatorParams : Type := {
  webAuthnKey : WebAuthnKey;
  passkeyServerUrl : string;
  entryPoint : Address;
  validatorAddress : option Address;
  credentials : option string;
  signWithAuthenticator : option Authenticator
}.

(** The object literal [getSerializedData] of [toPasskeyValidator] hands
    to [serializePasskeyValidatorData]. *)
Definition serializedDataOf (p : ValidatorParams) : Serialized.Data :=
  {| Serialized.passkeyServerUrl := passkeyServerUrl p;
     Serialized.credentials :=
       match credentials p with Some c => c | None => "include" end;
     Serialized.entryPoint := entryPoint p;
     Serialized.validatorAddress :=
       match validatorAddress p with
       | Some a => a
       | None => getValidatorAddress (entryPoint p)
       end;
     Serialized.pubKeyX := pubX (webAuthnKey p);
     Serialized.pubKeyY := pubY (webAuthnKey p);
     Serialized.credId := credId (webAuthnKey p);
     Serialized.authenticatorIdHash := authenticatorIdHash (webAuthnKey p) |}.

Definition toPasskeyValidator (client : Client) (p : ValidatorParams)
  : Prog KernelValidator :=
  let webAuthnKey := webAuthnKey p in
  let entryPointAddress := entryPoint p in
  let validatorAddress :=
    match validatorAddress p with
    | Some a => a
    | None => getValidatorAddress entryPointAddress
    end in
  (* Fetch chain id *)
  chainId <- getChainId client ;;
  let accountSignMessage (message : SignableMessage) : Prog Hex :=
    signMessageUsingWebAuthn message (passkeyServerUrl p) chainId
      (Some [{| descriptor_id := credId webAuthnKey;
                descriptor_type := "public-key" |}])
      (signWithAuthenticator p) in
  ret {|
    signMessage := accountSignMessage;
    signTransaction := fun _ _ => Throw SignTransactionNotSupportedBySmartAccount;
    signTypedData := signTypedDataWith accountSignMessage;
    validatorType := "SECONDARY";
    address := validatorAddress;
    source := "WebAuthnValidator";
    getIdentifier := fun _ => validatorAddress;
    getEnableData := fun _ =>
      lift (enableData (pubX webAuthnKey) (pubY webAuthnKey)
              (authenticatorIdHash webAuthnKey));
    getNonceKey := fun _accountAddress customNonceKey =>
      match customNonceKey with
      | Some n => if n =? 0 then ret 0 else ret n
      | None => ret 0
      end;
    signUserOperation :=
      signUserOperationWith accountSignMessage entryPointAddress chainId;
    getDummySignature := fun _ =>
      lift (Abi.encodeAbiParameters
              (signatureTuple dummyAuthenticatorData dummyClientDataJSON
                 0 dummyR dummyS false));
    isEnabled := fun _kernelAccountAddress _selector => ret false;
    getSerializedData := fun _ =>
      serializePasskeyValidatorData (serializedDataOf p)
  |}.

Definition deserializePasskeyValidator
  (client : Client) (serializedData : string) (entryPointAddress : Address)
  (signWithAuthenticator : option Authenticator)
  : Prog KernelValidator :=
  data <- lift (deserializePasskeyValidatorData serializedData) ;;
  (* Fetch chain id *)
  chainId <- getChainId client ;;
  (* build account with passkey *)
  let accountSignMessage (message : SignableMessage) : Prog Hex :=
    signMessageUsingWebAuthn message (Serialized.passkeyServerUrl data) chainId
      (Some [{| descriptor_id := Serialized.credId data;
                descriptor_type := "public-key" |}])
      signWithAuthenticator in
  ret {|
    signMessage := accountSignMessage;
    signTransaction := fun _ _ => Throw SignTransactionNotSupportedBySmartAccount;
    signTypedData := signTypedDataWith accountSignMessage;
    validatorType := "SECONDARY";
    address := Serialized.validatorAddress data;
    source := "WebAuthnValidator";
    getIdentifier := fun _ => Serialized.validatorAddress data;
    getEnableData := fun _ =>
      lift (enableData (Serialized.pubKeyX data) (Serialized.pubKeyY data)
              (Serialized.authenticatorIdHash data));
    getNonceKey := fun _ _ => ret 0;
    signUserOperation :=
      signUserOperationWith accountSignMessage entryPointAddress chainId;
    getDummySignature := fun _ =>
      lift (Abi.encodeAbiParameters
              (signatureTuple dummyAuthenticatorData dummyClientDataJSON
                 1 dummyR dummyS false));
    isEnabled := fun _kernelAccountAddress _selector => ret false;
    getSerializedData := fun _ =>
      serializePasskeyValidatorData
        {| Serialized.passkeyServerUrl := Serialized.passkeyServerUrl data;
           Serialized.credentials := Serialized.credentials data;
           Serialized.entryPoint := Serialized.entryPoint data;
           Serialized.validatorAddress := Serialized.validatorAddress data;
           Serialized.pubKeyX := Serialized.pubKeyX data;
           Serialized.pubKeyY := Serialized.pubKeyY data;
           Serialized.credId := Serialized.credId data;
           Serialized.authenticatorIdHash := Serialized.authenticatorIdHash data |}
  |}.

End ToPasskeyValidator.
End ToPasskeyValidator.

(** ** toWebAuthnKey.ts: the key of a stored credential *)

(** Web Crypto and Node's [Buffer], as [toWebAuthnKeyDetails] uses them.
    The two [crypto.subtle] calls are awaited; a rejection is an [Err]. *)
Class Crypto : Type := {
  CryptoKey : Type;
  (* Buffer.from(text, "base64") *)
  bufferFromBase64 : string -> list byte;
  (* crypto.subtle.importKey("spki", der, { name: "ECDSA", namedCurve: "P-256" },
     true, ["verify"]) *)
  importKey : list byte -> Result CryptoKey;
  (* crypto.subtle.exportKey("raw", key) *)
  exportKey : CryptoKey -> Result (list byte)
}.

(** A SyntaxError; the class of the exception is kept in the message. *)
Definition SyntaxError (msg : string) : JsError := Error ("SyntaxError: " ++ msg).

(** The number spelled by hexadecimal digits, most significant first. *)
Fixpoint hexDigitsFrom (acc : Z) (s : string) : option Z :=
  match s with
  | EmptyString => Some acc
  | String c rest =>
      match hexVal c with
      | Some d => hexDigitsFrom (acc * 16 + Z.of_N d) rest
      | None => None
      end
  end.

(** [BigInt("0x" + digits)]: the number the digits spell; with no digit, or
    with a character that is not one, a SyntaxError. *)
Definition bigIntOfHexLiteral (digits : string) : Result Z :=
  match digits with
  | EmptyString => Err (SyntaxError "Cannot convert 0x to a BigInt")
  | _ =>
      match hexDigitsFrom 0 digits with
      | Some n => Ok n
      | None => Err (SyntaxError ("Cannot convert 0x" ++ digits ++ " to a BigInt"))
      end
  end.

Module KeyDetails.
Section KeyDetails.
Context {ext : Externals} {crypto : Crypto}.
Import Utils ToWebAuthnKey.

Definition toWebAuthnKeyDetails (pubKey credId : string) : Prog WebAuthnKey :=
  idBytes <- lift (b64ToBytes credId) ;;
  authenticatorIdHash <- lift (keccak256 (uint8ArrayToHexString idBytes)) ;;
  let spkiDer := bufferFromBase64 pubKey in
  key <- lift (importKey spkiDer) ;;
  (* Export the key to the raw format *)
  rawKey <- lift (exportKey key) ;;
  let rawKeyBuffer := rawKey in
  (* The first byte is 0x04 (uncompressed), followed by x and y coordinates
     (32 bytes each for P-256) *)
  let pubKeyX := hexOfBytes (firstn 32 (skipn 1 rawKeyBuffer)) in
  let pubKeyY := hexOfBytes (skipn 33 rawKeyBuffer) in
  (* console.log(pubKeyX, pubKeyY): the two arguments, as a list *)
  consoleLog (JArr [JStr pubKeyX; JStr pubKeyY]) ;;
  x <- lift (bigIntOfHexLiteral pubKeyX) ;;
  y <- lift (bigIntOfHexLiteral pubKeyY) ;;
  ret {| pubX := x; pubY := y; credId := credId;
         authenticatorIdHash := authenticatorIdHash |}.

End KeyDetails.
End KeyDetails.

(** ** Reading an encoding back *)

(** The unsigned integer held by a list of bytes, big-endian. *)
Definition be_value (bs : list byte) : Z :=
  fold_left (fun acc b => acc * 256 + Z.of_N (Byte.to_N b)) bs 0.

(** The [i]-th 32-byte word of an ABI encoding. *)
Definition word_at (i : nat) (encoded : Hex) : Result Z :=
  bindR (hexToBytes encoded) (fun bs =>
    let w := firstn 32 (skipn (32 * i) bs) in
    if (List.length w =? 32)%nat then Ok (be_value w)
    else Err (ViemError "AbiDecodingDataSizeTooSmallError")).

(** ** Stand-ins for the imported functions and for the outside world *)

Module Double.

Definition alphabet (url : bool) : string :=
  if url
  then "ABCDEFGHIJKLMNOPQRSTUVWXYZabcdefghijklmnopqrstuvwxyz0123456789-_"
  else "ABCDEFGHIJKLMNOPQRSTUVWXYZabcdefghijklmnopqrstuvwxyz0123456789+/".

Definition digit (url : bool) (v : N) : ascii :=
  match String.get (N.to_nat v) (alphabet url) with
  | Some c => c
  | None => "="%char
  end.

(** Base64 without padding. *)
Fixpoint encode (url : bool) (bs : list byte) : list ascii :=
  match bs with
  | a :: b :: c :: rest =>
      let n := (Byte.to_N a * 65536 + Byte.to_N b * 256 + Byte.to_N c)%N in
      digit url (n / 262144) :: digit url ((n / 4096) mod 64)
        :: digit url ((n / 64) mod 64) :: digit url (n mod 64)
        :: encode url rest
  | [a; b] =>
      let n := (Byte.to_N a * 1024 + Byte.to_N b * 4)%N in
      [digit url (n / 4096); digit url ((n / 64) mod 64); digit url (n mod 64)]
  | [a] =>
      let n := (Byte.to_N a * 16)%N in
      [digit url (n / 64); digit url (n mod 64)]
  | [] => []
  end%N.

Definition base64url (bs : list byte) (urlMode : bool) : Result string :=
  Ok (string_of_list_ascii (encode urlMode bs)).

(** URL-safe base64, padding optional. *)
Definition decode_url (s : string) : Result (list byte) :=
  let std c :=
    if Ascii.eqb c "-"%char then "+"%char
    else if Ascii.eqb c "_"%char then "/"%char else c in
  match Base64.forgiving_decode
          (string_of_list_ascii (map std (list_ascii_of_string s))) with
  | Some bs => Ok bs
  | None => Err InvalidCharacterError
  end.

Definition decode_hex (s : string) : Result (list byte) :=
  match bytesOfHex s with
  | Some bs => Ok bs
  | None => Err (Error "not a hex string")
  end.

(** A raw signature: 32 bytes of [r], then 32 bytes of [s]. *)
Definition parse_raw (sig : Hex) : Result (Z * Z) :=
  bindR (hexToBytes sig) (fun bs =>
    if (List.length bs =? 64)%nat
    then Ok (be_value (firstn 32 bs), be_value (skipn 32 bs))
    else Err (Error "signature is not 64 bytes")).

(** Offset of the quoted name [type]. *)
Definition find_type (clientData : string) : Result Z :=
  match String.index 0 (json_text "'type'") clientData with
  | Some n => Ok (Z.of_nat n)
  | None => Err (Error "type not found")
  end.

Definition to_bigint (v : JsValue) : Result Z :=
  match v with
  | JNum n => Ok n
  | JBool b => Ok (if b then 1 else 0)
  | JStr s =>
      if startsWith s "0x"
      then match bytesOfHex
                   (if Nat.even (String.length s) then slice_from 2 s
                    else String "0" (slice_from 2 s)) with
           | Some bs => Ok (be_value bs)
           | None => Err (Error "SyntaxError")
           end
      else match NilZero.uint_of_string s with
           | Some u => Ok (Z.of_N (N.of_uint u))
           | None => Err (Error "SyntaxError")
           end
  | _ => Err (TypeError "Cannot convert to a BigInt")
  end.

(** Not a hash: the input cut or zero-filled to 32 bytes. *)
Definition fold32 (bs : list byte) : list byte :=
  firstn 32 (bs ++ repeat x00 32).

Fixpoint split_on (sep : ascii) (s : string) : list string :=
  match s with
  | EmptyString => [EmptyString]
  | String c rest =>
      if Ascii.eqb c sep then EmptyString :: split_on sep rest
      else match split_on sep rest with
           | first :: others => String c first :: others
           | [] => [String c EmptyString]
           end
  end.

Definition decimal (n : Z) : string := NilZero.string_of_uint (N.to_uint (Z.to_N n)).

(** One line of text, fields separated by a space. *)
Definition serialize (d : Serialized.Data) : string :=
  String.concat " "
    [Serialized.passkeyServerUrl d; Serialized.credentials d;
     Serialized.entryPoint d; Serialized.validatorAddress d;
     decimal (Serialized.pubKeyX d); decimal (Serialized.pubKeyY d);
     Serialized.credId d; Serialized.authenticatorIdHash d].

Definition deserialize (s : string) : Result Serialized.Data :=
  match split_on " " s with
  | [url; cred; ep; va; x; y; id; h] =>
      match NilZero.uint_of_string x, NilZero.uint_of_string y with
      | Some ux, Some uy =>
          Ok {| Serialized.passkeyServerUrl := url;
                Serialized.credentials := cred;
                Serialized.entryPoint := ep;
                Serialized.validatorAddress := va;
                Serialized.pubKeyX := Z.of_N (N.of_uint ux);
                Serialized.pubKeyY := Z.of_N (N.of_uint uy);
                Serialized.credId := id;
                Serialized.authenticatorIdHash := h |}
      | _, _ => Err (Error "SyntaxError")
      end
  | _ => Err (Error "SyntaxError")
  end.

Definition externals : Externals :=
  {| keccak_256 := fold32;
     BigInt := to_bigint;
     getTypesForEIP712Domain := fun _ => JArr [];
     validateTypedData := fun _ => Ok tt;
     hashTypedData := fun _ => Ok "0x00";
     getUserOperationHash := fun _ _ _ => Ok "0x00";
     b64ToBytes := decode_url;
     hexStringToUint8Array := decode_hex;
     base64FromArrayBuffer := base64url;
     findQuoteIndices := find_type;
     parseSignature := parse_raw;
     rip7212Networks := [7560; 1432];
     getValidatorAddress :=
       fun _ => "0xD990393C670dCcE8b4d8F858FB98c9912dBFAa06";
     serializePasskeyValidatorData := serialize;
     deserializePasskeyValidatorData := deserialize |}.

Definition serverUrl : string := "https://passkeys.example".

Definition startAnswer : JsValue :=
  JObj [("options", JObj [("challenge", JStr "Y2hhbGxlbmdl")]);
        ("requestId", JStr "req-1")].

Definition loginCredential : AuthenticationResponseJSON :=
  {| auth_id := "AQID";
     auth_response :=
       {| clientDataJSON :=
            "eyJ0eXBlIjoid2ViYXV0aG4uZ2V0IiwiY2hhbGxlbmdlIjoidGJ4WE5GUzlYXzRCeXIxY013cUtySUdCLV8zMGEwUWhaNnk3dWNNMEJPRSIsIm9yaWdpbiI6Imh0dHA6Ly9sb2NhbGhvc3Q6MzAwMCIsImNyb3NzT3JpZ2luIjpmYWxzZX0";
          authenticatorData :=
            "SZYN5YgOjGh0NBcPZHZgW4_krrmihjLHmVzzuoMdl2MdAAAAAA";
          (* r = 1, s = curveOrder - 1, as 64 raw bytes *)
          signature :=
            "AAAAAAAAAAAAAAAAAAAAAAAAAAAAAAAAAAAAAAAAAAH_____AAAAAP__________vOb6racXnoTzucrC_GMlUA" |} |}.

Definition registerCredential : RegistrationResponseJSON :=
  {| reg_id := "AQID";
     reg_clientDataJSON := EmptyString;
     reg_attestationObject := EmptyString |}.

(** A passkey server that answers the two [start] calls with
    [startAnswer] and any other call with [completeAnswer], an
    authenticator that returns the credentials above, and a chain with
    the given id. *)
Definition world (completeAnswer : JsValue) (chainId : Z) : World :=
  {| on_fetch := fun _ url _ =>
       if String.eqb url (serverUrl ++ "/api/auth/start")
          || String.eqb url (serverUrl ++ "/api/users/register/start")
       then Ok startAnswer else Ok completeAnswer;
     on_authenticate := fun _ _ _ => Ok loginCredential;
     on_register := fun _ _ _ => Ok registerCredential;
     on_getChainId := fun _ _ => Ok chainId |}.

Definition verifiedAnswer : JsValue :=
  JObj [("accessToken", JStr "token"); ("verified", JBool true);
        ("publicKeyX", JStr "0x01"); ("publicKeyY", JStr "0x02")].

Definition params (m : ToWebAuthnKey.WebAuthnMode)
  : ToWebAuthnKey.WebAuthnAccountParams :=
  {| ToWebAuthnKey.passkeyName := "alice";
     ToWebAuthnKey.passkeyServerUrl := serverUrl;
     ToWebAuthnKey.webAuthnKey := None;
     ToWebAuthnKey.mode := m;
     ToWebAuthnKey.signWithAuthenticator := Injected "startAuthentication" |}.

Definition key : ToWebAuthnKey.WebAuthnKey :=
  {| ToWebAuthnKey.pubX := 1;
     ToWebAuthnKey.pubY := 2;
     ToWebAuthnKey.credId := "AQID";
     ToWebAuthnKey.authenticatorIdHash :=
       "0x0102030000000000000000000000000000000000000000000000000000000000" |}.

Definition validatorParams : ToPasskeyValidator.ValidatorParams :=
  {| ToPasskeyValidator.webAuthnKey := key;
     ToPasskeyValidator.passkeyServerUrl := serverUrl;
     ToPasskeyValidator.entryPoint :=
       "0x5FF137D4b0FDCD49DcA30c7CF57E578a026d2789";
     ToPasskeyValidator.validatorAddress := None;
     ToPasskeyValidator.credentials := None;
     ToPasskeyValidator.signWithAuthenticator :=
       Some (Injected "startAuthentication") |}.

Definition client : Client := {| transport := "https://rpc.example" |}.

(** A key store whose keys are their own raw encoding; the text of a
    public key is read as URL-safe base64. *)
Definition crypto : Crypto :=
  {| CryptoKey := list byte;
     bufferFromBase64 := fun s =>
       match decode_url s with Ok bs => bs | Err _ => [] end;
     importKey := fun der => Ok der;
     exportKey := fun key => Ok key |}.

(** An externals record whose typed-data validation refuses everything. *)
Definition strictExternals : Externals :=
  {| keccak_256 := fold32;
     BigInt := to_bigint;
     getTypesForEIP712Domain := fun _ => JArr [];
     validateTypedData := fun _ => Err (ViemError "InvalidPrimaryTypeError");
     hashTypedData := fun _ => Ok "0x00";
     getUserOperationHash := fun _ _ _ => Ok "0x00";
     b64ToBytes := decode_url;
     hexStringToUint8Array := decode_hex;
     base64FromArrayBuffer := base64url;
     findQuoteIndices := find_type;
     parseSignature := parse_raw;
     rip7212Networks := [7560; 1432];
     getValidatorAddress :=
       fun _ => "0xD990393C670dCcE8b4d8F858FB98c9912dBFAa06";
     serializePasskeyValidatorData := serialize;
     deserializePasskeyValidatorData := deserialize |}.

(** A world like [world], whose authenticator refuses every request. *)
Definition cancelling (completeAnswer : JsValue) (chainId : Z) : World :=
  {| on_fetch := on_fetch (world completeAnswer chainId);
     on_authenticate := fun _ _ _ => Err (Rejected "NotAllowedError");
     on_register := fun _ _ _ => Err (Rejected "NotAllowedError");
     on_getChainId := on_getChainId (world completeAnswer chainId) |}.

(** A world like [world], whose authenticator returns [cred]. *)
Definition answering (cred : AuthenticationResponseJSON) (chainId : Z) : World :=
  {| on_fetch := on_fetch (world verifiedAnswer chainId);
     on_authenticate := fun _ _ _ => Ok cred;
     on_register := on_register (world verifiedAnswer chainId);
     on_getChainId := on_getChainId (world verifiedAnswer chainId) |}.

(** The 65 bytes 04, x = 1, y = 2 of an uncompressed point, in base64. *)
Definition rawKeyText : string :=
  "BAAAAAAAAAAAAAAAAAAAAAAAAAAAAAAAAAAAAAAAAAABAAAAAAAAAAAAAAAAAAAAAAAAAAAAAAAAAAAAAAAAAAI".

(** A world like [world], whose authenticator returns credentials with an
    empty id. *)
Definition anonymous (completeAnswer : JsValue) (chainId : Z) : World :=
  {| on_fetch := on_fetch (world completeAnswer chainId);
     on_authenticate := fun _ _ _ =>
       Ok {| auth_id := EmptyString;
             auth_response := auth_response loginCredential |};
     on_register := fun _ _ _ =>
       Ok {| reg_id := EmptyString;
             reg_clientDataJSON := EmptyString;
             reg_attestationObject := EmptyString |};
     on_getChainId := on_getChainId (world completeAnswer chainId) |}.

(** A passkey server that answers every request with [answer]. *)
Definition flat (answer : JsValue) : World :=
  {| on_fetch := fun _ _ _ => Ok answer;
     on_authenticate := on_authenticate (world answer 1);
     on_register := on_register (world answer 1);
     on_getChainId := on_getChainId (world answer 1) |}.

End Double.

(** ** Vocabulary of the statements *)

Section Vocabulary.
Context {ext : Externals}.
Import Utils ToWebAuthnKey ToPasskeyValidator.

(** [v.k] can be read and is truthy. *)
Definition truthy_prop (v : JsValue) (k : string) : bool :=
  match get_prop v k with Ok x => truthy x | Err _ => false end.

(** [v.k] can be read and is falsy. *)
Definition falsy_prop (v : JsValue) (k : string) : bool :=
  match get_prop v k with Ok x => negb (truthy x) | Err _ => false end.

(** The answer of /api/auth/complete is there and carries a token. *)
Definition has_access_token (r : JsValue) : bool :=
  truthy r && truthy_prop r "accessToken".

(** The answer of a [complete] call that lets the ceremony go on. *)
Definition verified (m : WebAuthnMode) (r : JsValue) : bool :=
  match m with
  | ModeLogin => has_access_token r
  | ModeRegister => truthy_prop r "verified"
  end.

Definition completeUrl (p : WebAuthnAccountParams) : string :=
  ToWebAuthnKey.passkeyServerUrl p ++
  match mode p with
  | ModeLogin => "/api/auth/complete"
  | ModeRegister => "/api/users/register/complete"
  end.

Definition in_uint256 (n : Z) : Prop := 0 <= n < 2 ^ 256.

(** The function that receives the assertion options. *)
Definition authenticatorOf (f : option Authenticator) : Authenticator :=
  match f with Some g => g | None => BrowserStartAuthentication end.

(** The authenticator is asked to sign [message] and answers [cred]. *)
Definition asserts (w : World) (message : SignableMessage)
  (allowCredentials : option (list PublicKeyCredentialDescriptorJSON))
  (f : option Authenticator) (cred : AuthenticationResponseJSON) : Prop :=
  exists content bytes challenge,
    messageContent message = Ok content /\
    hexStringToUint8Array (formatMessage content) = Ok bytes /\
    base64FromArrayBuffer bytes true = Ok challenge /\
    on_authenticate w [] (authenticatorOf f)
      (assertionOptions challenge allowCredentials) = Ok cred.

(** Every field of the assertion [cred] can be read: the authenticator
    data [ad], the client data text [cdj] with its [type] at [loc], and
    the signature [(r, s)]. *)
Definition decodes (cred : AuthenticationResponseJSON)
  (ad : list byte) (cdj : string) (loc r s : Z) : Prop :=
  b64ToBytes (authenticatorData (auth_response cred)) = Ok ad /\
  atob (clientDataJSON (auth_response cred)) = Ok cdj /\
  findQuoteIndices cdj = Ok loc /\
  exists sigBytes,
    b64ToBytes (signature (auth_response cred)) = Ok sigBytes /\
    parseSignature (uint8ArrayToHexString sigBytes) = Ok (r, s).

(** The bytes of the tuple
    (bytes, string, uint256, uint256, uint256, bool). *)
Definition signatureBytes (ad : list byte) (cdj : string) (loc r s : Z)
  (usePrecompiled : bool) : list byte :=
  (Abi.word 192
   ++ Abi.word (192 + Z.of_nat (List.length (Abi.encode_dynamic_bytes ad)))
   ++ Abi.word loc ++ Abi.word r ++ Abi.word s
   ++ Abi.word (if usePrecompiled then 1 else 0)
   ++ Abi.encode_dynamic_bytes ad
   ++ Abi.encode_dynamic_bytes (utf8 cdj))%list.

(** A validator is the result of one of the two constructors. *)
Definition built (w : World) (client : Client) (p : ValidatorParams)
  (v : KernelValidator) : Prop :=
  outcome w (toPasskeyValidator client p) = Ok v.

Definition restored (w : World) (client : Client) (serializedData : string)
  (entryPoint : Address) (f : option Authenticator) (v : KernelValidator)
  : Prop :=
  outcome w (deserializePasskeyValidator client serializedData entryPoint f)
  = Ok v.

(** Modelled from the spec: [serializePasskeyValidatorData] and
    [deserializePasskeyValidatorData] of ./utils are missing from the
    sources; the spec has them round-trip the configuration of an adapter:
    what is written reads back as itself. *)
Definition round_trips (d : Serialized.Data) : Prop :=
  deserializePasskeyValidatorData (serializePasskeyValidatorData d) = Ok d.

(** The encoded dummy signature of each constructor. *)
Definition dummySignature (responseTypeLocation : Z) : Result Hex :=
  Abi.encodeAbiParameters
    (signatureTuple dummyAuthenticatorData dummyClientDataJSON
       responseTypeLocation dummyR dummyS false).

(** A request to the passkey server. *)
Definition is_fetch (ev : Event) : bool :=
  match ev with EvFetch _ _ _ => true | _ => false end.

(** An invocation of the authenticator callback. *)
Definition is_authenticator (ev : Event) : bool :=
  match ev with
  | EvAuthenticate _ _ _ | EvRegister _ _ _ => true
  | _ => false
  end.

Definition count (f : Event -> bool) (tr : list Event) : nat :=
  List.length (filter f tr).

(** The id of the credential a successful authenticator call returned. *)
Definition returned_id (ev : Event) : option string :=
  match ev with
  | EvAuthenticate _ _ (Ok cred) => Some (auth_id cred)
  | EvRegister _ _ (Ok cred) => Some (reg_id cred)
  | _ => None
  end.

(** The message has one of the three shapes [signMessageUsingWebAuthn]
    takes. *)
Definition accepted (message : SignableMessage) : bool :=
  match message with
  | MsgString _ => true
  | MsgObject (Some (RawValue (JStr _))) => true
  | MsgObject (Some (RawBytes _)) => true
  | _ => false
  end.

(** Number of bytes after padding to a multiple of 32. *)
Definition padded (n : nat) : nat := (n + Nat.modulo (32 - Nat.modulo n 32) 32)%nat.

(** The address of the first request of a ceremony. *)
Definition startUrl (p : WebAuthnAccountParams) : string :=
  ToWebAuthnKey.passkeyServerUrl p ++
  match mode p with
  | ModeLogin => "/api/auth/start"
  | ModeRegister => "/api/users/register/start"
  end.

(** Two field lists that differ at most in the value of the first field
    named [k]. *)
Inductive same_but (k : string) :
  list (string * JsValue) -> list (string * JsValue) -> Prop :=
| same_nil : same_but k [] []
| same_here v v' l : same_but k ((k, v) :: l) ((k, v') :: l)
| same_next k2 v2 l l' :
    k2 <> k -> same_but k l l' -> same_but k ((k2, v2) :: l) ((k2, v2) :: l').

(** A request to the authenticator that names the one credential [id]. *)
Definition scoped_request (id : string) (f : option Authenticator) (ev : Event)
  : Prop :=
  exists challenge answer,
    ev = EvAuthenticate (authenticatorOf f)
           (assertionOptions challenge
              (Some [{| descriptor_id := id; descriptor_type := "public-key" |}]))
           answer.

(** At most one call, and it is a request scoped to [id]. *)
Definition only_scoped_requests (id : string) (f : option Authenticator)
  (tr : list Event) : Prop :=
  (List.length tr <= 1)%nat /\ forall ev, In ev tr -> scoped_request id f ev.

End Vocabulary.

(** * Properties *)

(** ** Hex strings *)

Lemma hex_of_byte_back (b : byte) :
  bytesOfHex (byteToHex b) = Some [b].
Proof. destruct b; reflexivity. Qed.

Lemma bytesOfHex_app (b : byte) (s : string) :
  bytesOfHex (byteToHex b ++ s) =
  match bytesOfHex s with Some bs => Some (b :: bs) | None => None end.
Proof.
  pose proof (hex_of_byte_back b) as Hb.
  unfold byteToHex in *. cbn [append bytesOfHex] in *.
  destruct (hexVal (hexDigit (Byte.to_N b / 16))); [|discriminate].
  destruct (hexVal (hexDigit (Byte.to_N b mod 16))); [|discriminate].
  destruct (Byte.of_N (16 * n + n0)); [|discriminate].
  injection Hb as ->. destruct (bytesOfHex s); reflexivity.
Qed.

Lemma bytesOfHex_hexOfBytes (bs : list byte) :
  bytesOfHex (hexOfBytes bs) = Some bs.
Proof.
  induction bs as [|b bs IH]; [reflexivity|].
  cbn [hexOfBytes]. rewrite bytesOfHex_app, IH. reflexivity.
Qed.

Lemma hexOfBytes_length_even (bs : list byte) :
  Nat.even (String.length (hexOfBytes bs)) = true.
Proof. induction bs as [|b bs IH]; [reflexivity|exact IH]. Qed.

Lemma substring_all (s : string) : substring 0 (String.length s) s = s.
Proof. induction s as [|c s IH]; [reflexivity|]. cbn. now rewrite IH. Qed.

Lemma slice_from_2 (a b : ascii) (s : string) :
  slice_from 2 (String a (String b s)) = s.
Proof.
  unfold slice_from. cbn [String.length Nat.sub substring].
  rewrite Nat.sub_0_r. apply substring_all.
Qed.

(** viem reads back the bytes that were hex-encoded. *)
Lemma hexToBytes_bytesToHex (bs : list byte) :
  hexToBytes (bytesToHex bs) = Ok bs.
Proof.
  unfold hexToBytes, bytesToHex. cbn [append].
  rewrite slice_from_2, hexOfBytes_length_even, bytesOfHex_hexOfBytes.
  reflexivity.
Qed.

Lemma keccak256_of_bytes {ext : Externals} (bs : list byte) :
  keccak256 (Utils.uint8ArrayToHexString bs) = Ok (bytesToHex (keccak_256 bs)).
Proof.
  unfold keccak256, Utils.uint8ArrayToHexString.
  rewrite hexToBytes_bytesToHex. reflexivity.
Qed.


(** ** Programs *)

Lemma run_bind {A B} (w : World) (p : Prog A) (f : A -> Prog B) (past : list Event) :
  run w (bindP p f) past =
  match run w p past with
  | (Ok a, tr) => run w (f a) tr
  | (Err e, tr) => (Err e, tr)
  end.
Proof.
  revert past.
  induction p as [a|e|url init k IH|a o k IH|a o k IH|c k IH|v k IH];
    intro past; cbn; try reflexivity.
  - destruct (on_fetch w past url init); [apply IH|reflexivity].
  - destruct (on_authenticate w past a o); [apply IH|reflexivity].
  - destruct (on_register w past a o); [apply IH|reflexivity].
  - destruct (on_getChainId w past c); [apply IH|reflexivity].
  - apply IH.
Qed.

Lemma run_lift {A} (w : World) (r : Result A) (past : list Event) :
  run w (lift r) past = (r, past).
Proof. destruct r; reflexivity. Qed.

Lemma append_inv_head (s a b : string) : s ++ a = s ++ b -> a = b.
Proof.
  induction s as [|c s IH]; cbn; [trivial|].
  intro H. injection H as H. now apply IH.
Qed.

(** ** Credential acquisition *)

Section Ceremony.
Context {ext : Externals}.
Import ToWebAuthnKey.

Ltac step H :=
  match type of H with
  | context [on_fetch ?w ?p ?u ?i] => destruct (on_fetch w p u i) eqn:?
  | context [on_authenticate ?w ?p ?u ?i] =>
      destruct (on_authenticate w p u i) eqn:?
  | context [on_register ?w ?p ?u ?i] => destruct (on_register w p u i) eqn:?
  | context [get_prop ?v ?k] => destruct (get_prop v k) eqn:?
  | context [truthy ?v] => destruct (truthy v) eqn:?
  | context [String.eqb ?a ?b] => destruct (String.eqb a b) eqn:?
  end; cbn in H.

(** Runs the ceremony symbolically, one answer of the world at a time,
    and keeps the runs whose trace holds the event of [Hin]. *)
Ltac ceremony Hrun Hin :=
  cbn in Hrun;
  repeat (step Hrun);
  injection Hrun as <- <-; cbn in Hin;
  repeat (destruct Hin as [Hin|Hin];
          [try discriminate Hin; try (injection Hin; intros; subst)|]);
  try contradiction;
  try match goal with
      | H : _ ++ _ = _ ++ _ |- _ => apply append_inv_head in H; discriminate H
      end.

Ltac use_answers H :=
  repeat match goal with
         | E : truthy _ = _ |- _ =>
             tryif constr_eq E H then fail else rewrite E in H
         | E : get_prop _ _ = _ |- _ =>
             tryif constr_eq E H then fail else rewrite E in H
         end;
  cbn in H; try discriminate H;
  try match goal with
      | E1 : truthy ?v = true, E2 : get_prop ?v _ = Err _ |- _ =>
          destruct v; discriminate
      | E1 : get_prop ?v _ = Ok _, E2 : get_prop ?v _ = Err _ |- _ =>
          destruct v; discriminate
      end.

Lemma login_unverified w p init r res tr :
  mode p = ModeLogin ->
  run w (loginOrRegisterWithWebAuthn p) [] = (res, tr) ->
  In (EvFetch (passkeyServerUrl p ++ "/api/auth/complete") init (Ok r)) tr ->
  has_access_token r = false ->
  res = Err LoginNotVerified.
Proof.
  intros Hmode Hrun Hin Hr.
  unfold loginOrRegisterWithWebAuthn in Hrun. rewrite Hmode in Hrun.
  ceremony Hrun Hin; try reflexivity;
    unfold has_access_token, truthy_prop in Hr; use_answers Hr.
Qed.

Lemma register_unverified w p init r res tr :
  mode p = ModeRegister ->
  run w (loginOrRegisterWithWebAuthn p) [] = (res, tr) ->
  In (EvFetch (passkeyServerUrl p ++ "/api/users/register/complete") init (Ok r)) tr ->
  falsy_prop r "verified" = true ->
  res = Err RegistrationNotVerified.
Proof.
  intros Hmode Hrun Hin Hr.
  unfold loginOrRegisterWithWebAuthn in Hrun. rewrite Hmode in Hrun.
  ceremony Hrun Hin; try reflexivity;
    unfold falsy_prop in Hr; use_answers Hr.
Qed.

Lemma ceremony_without_public_key w p init r res tr :
  run w (loginOrRegisterWithWebAuthn p) [] = (res, tr) ->
  In (EvFetch (completeUrl p) init (Ok r)) tr ->
  verified (mode p) r = true ->
  truthy_prop r "publicKeyX" && truthy_prop r "publicKeyY" = false ->
  res = Err MissingPublicKey.
Proof.
  intros Hrun Hin Hv Hk. unfold completeUrl in Hin.
  unfold loginOrRegisterWithWebAuthn in Hrun.
  destruct (mode p) eqn:Hmode;
    ceremony Hrun Hin; try reflexivity;
    unfold verified, has_access_token, truthy_prop in Hv, Hk;
    use_answers Hv; use_answers Hk.
Qed.

(** A ceremony that fails leaves [toWebAuthnKey] with the same failure. *)
Lemma toWebAuthnKey_failure w p e tr :
  webAuthnKey p = None ->
  run w (loginOrRegisterWithWebAuthn p) [] = (Err e, tr) ->
  outcome w (toWebAuthnKey p) = Err e.
Proof.
  intros Hk Hrun. unfold outcome, toWebAuthnKey. rewrite Hk.
  destruct (mode p); cbn [bind Monad_Prog]; rewrite run_bind, Hrun; reflexivity.
Qed.

Lemma toWebAuthnKey_success w p k :
  webAuthnKey p = None ->
  outcome w (toWebAuthnKey p) = Ok k ->
  exists c, outcome w (loginOrRegisterWithWebAuthn p) = Ok c /\
            keyOfCeremony c = Ok k.
Proof.
  intros Hk Hrun. unfold outcome, toWebAuthnKey in *. rewrite Hk in Hrun.
  assert (H : fst (run w (bindP (loginOrRegisterWithWebAuthn p)
                            (fun c => lift (keyOfCeremony c))) []) = Ok k)
    by (destruct (mode p); exact Hrun).
  rewrite run_bind in H.
  destruct (run w (loginOrRegisterWithWebAuthn p) []) as [[c|e] tr];
    [|discriminate H].
  rewrite run_lift in H. exists c. split; [reflexivity|exact H].
Qed.

Lemma keyOfCeremony_hash c k :
  keyOfCeremony c = Ok k ->
  exists idBytes,
    b64ToBytes (credId k) = Ok idBytes /\
    authenticatorIdHash k = bytesToHex (keccak_256 idBytes).
Proof.
  unfold keyOfCeremony. intro H.
  destruct (BigInt (publicKeyX c)); [|discriminate H].
  destruct (BigInt (publicKeyY c)); [|discriminate H].
  destruct (b64ToBytes (ceremonyCredId c)) as [idBytes|] eqn:Hid;
    [|discriminate H].
  cbn [bindR] in H. rewrite keccak256_of_bytes in H. cbn [bindR] in H.
  injection H as <-. exists idBytes. split; [exact Hid|reflexivity].
Qed.

End Ceremony.

(** ** ABI words *)

Lemma to_N_byte_of_N (n : N) : Byte.to_N (byte_of_N n) = (n mod 256)%N.
Proof.
  unfold byte_of_N.
  destruct (Byte.of_N (n mod 256)) as [b|] eqn:E.
  - now apply Byte.to_of_N.
  - apply Byte.of_N_None_iff in E.
    pose proof (N.mod_upper_bound n 256). lia.
Qed.

Lemma length_be_bytes (len : nat) (n : Z) : List.length (Abi.be_bytes len n) = len.
Proof.
  revert n. induction len as [|len IH]; intro n; cbn [Abi.be_bytes]; [reflexivity|].
  rewrite length_app, IH. cbn. lia.
Qed.

Lemma length_word (n : Z) : List.length (Abi.word n) = 32%nat.
Proof. apply length_be_bytes. Qed.

Lemma be_value_snoc (bs : list byte) (b : byte) :
  be_value (bs ++ [b]) = be_value bs * 256 + Z.of_N (Byte.to_N b).
Proof. unfold be_value. rewrite fold_left_app. reflexivity. Qed.

Lemma be_value_be_bytes (len : nat) (n : Z) :
  0 <= n < 256 ^ Z.of_nat len -> be_value (Abi.be_bytes len n) = n.
Proof.
  revert n. induction len as [|len IH]; intros n Hn.
  - cbn in *. lia.
  - cbn [Abi.be_bytes]. rewrite be_value_snoc, to_N_byte_of_N.
    rewrite Nat2Z.inj_succ, Z.pow_succ_r in Hn by lia.
    rewrite IH by (split; [apply Z.div_pos; lia|apply Z.div_lt_upper_bound; lia]).
    pose proof (Z.mod_pos_bound n 256 ltac:(lia)) as Hm.
    replace (Z.to_N (n mod 256) mod 256)%N with (Z.to_N (n mod 256))
      by (symmetry; apply N.mod_small; lia).
    rewrite Z2N.id by lia.
    pose proof (Z.div_mod n 256 ltac:(lia)). lia.
Qed.

Lemma be_value_word (n : Z) : in_uint256 n -> be_value (Abi.word n) = n.
Proof.
  intro H. apply be_value_be_bytes.
  change (256 ^ Z.of_nat 32) with (2 ^ 256). exact H.
Qed.

(** The words at the head of an encoding can be read back. *)
Lemma word_at_0 (w0 rest : list byte) :
  List.length w0 = 32%nat ->
  word_at 0 (bytesToHex (w0 ++ rest)) = Ok (be_value w0).
Proof.
  intro H. unfold word_at. rewrite hexToBytes_bytesToHex, Nat.mul_0_r.
  cbn [bindR skipn].
  rewrite firstn_app, H, Nat.sub_diag, firstn_O, app_nil_r.
  assert (Hw : firstn 32 w0 = w0) by (rewrite <- H; apply firstn_all).
  rewrite Hw, H. reflexivity.
Qed.

Lemma word_at_S (i : nat) (w0 rest : list byte) :
  List.length w0 = 32%nat ->
  word_at (S i) (bytesToHex (w0 ++ rest)) = word_at i (bytesToHex rest).
Proof.
  intro H. unfold word_at. rewrite !hexToBytes_bytesToHex. cbn [bindR].
  replace (32 * S i)%nat with (List.length w0 + 32 * i)%nat by lia.
  rewrite skipn_app, skipn_all2 by lia.
  replace (List.length w0 + 32 * i - List.length w0)%nat with (32 * i)%nat by lia.
  reflexivity.
Qed.

(** ** Signature codec *)

Lemma prepare_uint256 (n : Z) :
  in_uint256 n -> Abi.prepare (Abi.Uint256 n) = Ok (false, Abi.word n).
Proof.
  intros [H1 H2]. cbn [Abi.prepare].
  apply Z.leb_le in H1. apply Z.ltb_lt in H2. now rewrite H1, H2.
Qed.

Section Codec.
Context {ext : Externals}.
Import Utils ToWebAuthnKey ToPasskeyValidator.

Lemma signature_layout ad cdj loc r s b :
  in_uint256 loc -> in_uint256 r -> in_uint256 s ->
  Abi.encodeAbiParameters (signatureTuple (bytesToHex ad) cdj loc r s b) =
  Ok (bytesToHex (signatureBytes ad cdj loc r s b)).
Proof.
  intros Hl Hr Hs. unfold Abi.encodeAbiParameters, signatureTuple.
  cbn [map Abi.sequence].
  rewrite !prepare_uint256 by assumption.
  cbn [Abi.prepare]. rewrite hexToBytes_bytesToHex. cbn [bindR].
  unfold Abi.layout. cbn [fold_left fst snd]. rewrite !length_word.
  cbn [Nat.add List.length app].
  unfold signatureBytes. do 2 f_equal. rewrite <- !app_assoc.
  f_equal. f_equal. f_equal. lia.
Qed.

Lemma signatureBytes_words ad cdj loc r s b :
  in_uint256 loc -> in_uint256 r -> in_uint256 s ->
  let sig := bytesToHex (signatureBytes ad cdj loc r s b) in
  word_at 2 sig = Ok loc /\ word_at 3 sig = Ok r /\ word_at 4 sig = Ok s /\
  word_at 5 sig = Ok (if b then 1 else 0).
Proof.
  intros Hl Hr Hs sig. subst sig. unfold signatureBytes.
  repeat split;
    rewrite !word_at_S by apply length_word;
    rewrite word_at_0 by apply length_word;
    rewrite be_value_word; try reflexivity; try assumption.
  destruct b; unfold in_uint256; lia.
Qed.

Lemma normalizeS_high s : s > curveOrder / 2 -> normalizeS s = curveOrder - s.
Proof. unfold normalizeS. intro H. apply Z.gtb_gt in H. now rewrite H. Qed.

Lemma normalizeS_low s : s <= curveOrder / 2 -> normalizeS s = s.
Proof.
  unfold normalizeS. intro H.
  destruct (s >? curveOrder / 2) eqn:E; [apply Z.gtb_gt in E; lia|reflexivity].
Qed.

Lemma normalizeS_bound s : normalizeS s <= curveOrder / 2.
Proof.
  unfold normalizeS.
  destruct (s >? curveOrder / 2) eqn:E.
  - apply Z.gtb_gt in E. revert E.
    change (curveOrder / 2) with
      57896044605178124381348723474703786764998477612067880171211129530534256022184.
    unfold curveOrder. lia.
  - rewrite Z.gtb_ltb in E. apply Z.ltb_ge in E. exact E.
Qed.

Lemma encodeAssertion_steps chainId cred ad cdj loc r s :
  decodes cred ad cdj loc r s ->
  encodeAssertion chainId cred =
  Abi.encodeAbiParameters
    (signatureTuple (uint8ArrayToHexString ad) cdj loc r (normalizeS s)
       (isRIP7212SupportedNetwork chainId)).
Proof.
  intros (Had & Hcdj & Hloc & sigBytes & Hsig & Hparse).
  unfold encodeAssertion, parseAndNormalizeSig.
  rewrite Had, Hcdj. cbn [bindR]. rewrite Hloc, Hsig. cbn [bindR].
  rewrite Hparse. reflexivity.
Qed.

Lemma signMessage_run w message url chainId allowCredentials f cred :
  asserts w message allowCredentials f cred ->
  outcome w (signMessageUsingWebAuthn message url chainId allowCredentials f)
  = encodeAssertion chainId cred.
Proof.
  intros (content & bytes & challenge & Hc & Hb & Hch & Hauth).
  unfold outcome, signMessageUsingWebAuthn.
  rewrite Hc. cbn. rewrite Hb. cbn. rewrite Hch. cbn.
  destruct f as [g|]; cbn in *; rewrite Hauth;
    destruct (encodeAssertion chainId cred); reflexivity.
Qed.

Lemma messageContent_shapes message :
  match message with
  | MsgString s => messageContent message = Ok s
  | MsgObject (Some (RawValue (JStr s))) => messageContent message = Ok s
  | MsgObject (Some (RawBytes bs)) =>
      messageContent message = Ok (uint8ArrayToString bs)
  | _ => messageContent message = Err TypeMismatch
  end.
Proof.
  destruct message as [s|[[v|bs]|]]; try reflexivity.
  destruct v; reflexivity.
Qed.

Lemma isRIP7212SupportedNetwork_spec chainId :
  isRIP7212SupportedNetwork chainId = true <-> In chainId rip7212Networks.
Proof.
  unfold isRIP7212SupportedNetwork. rewrite existsb_exists. split.
  - intros (x & Hin & Heq). apply Z.eqb_eq in Heq. now subst.
  - intro Hin. exists chainId. split; [exact Hin|apply Z.eqb_refl].
Qed.

End Codec.

(** ** Validators *)

Section Validators.
Context {ext : Externals}.
Import Utils ToWebAuthnKey ToPasskeyValidator.

Ltac run_step H :=
  cbn [bind ret Monad_Prog bindP getChainId run lift fst] in H.

Ltac invert_built H :=
  unfold built, restored, outcome, toPasskeyValidator,
    deserializePasskeyValidator in H;
  run_step H;
  repeat match type of H with
         | context [deserializePasskeyValidatorData ?s] =>
             destruct (deserializePasskeyValidatorData s) eqn:?; run_step H
         | context [on_getChainId ?w ?p ?c] =>
             destruct (on_getChainId w p c) eqn:?; run_step H
         end;
  try discriminate H; injection H as <-.

Lemma built_signMessage w client p v :
  built w client p v ->
  exists chainId,
    on_getChainId w [] client = Ok chainId /\
    signMessage v = fun message =>
      signMessageUsingWebAuthn message (passkeyServerUrl p) chainId
        (Some [{| descriptor_id := credId (webAuthnKey p);
                  descriptor_type := "public-key" |}])
        (signWithAuthenticator p).
Proof. intro H. invert_built H. eexists. split; reflexivity. Qed.

Lemma restored_signMessage w client sd ep f v :
  restored w client sd ep f v ->
  exists data chainId,
    deserializePasskeyValidatorData sd = Ok data /\
    signMessage v = fun message =>
      signMessageUsingWebAuthn message (Serialized.passkeyServerUrl data) chainId
        (Some [{| descriptor_id := Serialized.credId data;
                  descriptor_type := "public-key" |}])
        f.
Proof. intro H. invert_built H. do 2 eexists. split; reflexivity. Qed.

Lemma built_signTransaction w client p v tx options :
  built w client p v ->
  signTransaction v tx options = Throw SignTransactionNotSupportedBySmartAccount.
Proof. intro H. invert_built H. reflexivity. Qed.

Lemma restored_signTransaction w client sd ep f v tx options :
  restored w client sd ep f v ->
  signTransaction v tx options = Throw SignTransactionNotSupportedBySmartAccount.
Proof. intro H. invert_built H. reflexivity. Qed.

Lemma built_getEnableData w client p v :
  built w client p v ->
  getEnableData v tt =
  lift (enableData (pubX (webAuthnKey p)) (pubY (webAuthnKey p))
          (authenticatorIdHash (webAuthnKey p))) /\
  getSerializedData v tt = serializePasskeyValidatorData (serializedDataOf p).
Proof. intro H. invert_built H. split; reflexivity. Qed.

Lemma restored_getEnableData w client sd ep f v :
  restored w client sd ep f v ->
  exists data,
    deserializePasskeyValidatorData sd = Ok data /\
    getEnableData v tt =
    lift (enableData (Serialized.pubKeyX data) (Serialized.pubKeyY data)
            (Serialized.authenticatorIdHash data)).
Proof. intro H. invert_built H. eexists. split; reflexivity. Qed.

Lemma restore_succeeds w client sd ep f data chainId :
  deserializePasskeyValidatorData sd = Ok data ->
  on_getChainId w [] client = Ok chainId ->
  exists v, restored w client sd ep f v.
Proof.
  intros Hd Hc. unfold restored, outcome, deserializePasskeyValidator.
  rewrite Hd. cbn [bind ret Monad_Prog bindP getChainId run lift fst].
  rewrite Hc. eexists. reflexivity.
Qed.

Lemma built_getDummySignature w client p v :
  built w client p v -> getDummySignature v tt = lift (dummySignature 0).
Proof. intro H. invert_built H. reflexivity. Qed.

Lemma restored_getDummySignature w client sd ep f v :
  restored w client sd ep f v -> getDummySignature v tt = lift (dummySignature 1).
Proof. intro H. invert_built H. reflexivity. Qed.

End Validators.

(** ** Signing requests *)

Section Signing.
Context {ext : Externals}.
Import Utils ToWebAuthnKey ToPasskeyValidator.

(** A message of no accepted shape is refused before anything leaves the
    module. *)
Lemma unsupported_message_refused message url chainId allowCredentials f :
  messageContent message = Err TypeMismatch ->
  forall w past,
    run w (signMessageUsingWebAuthn message url chainId allowCredentials f) past
    = (Err TypeMismatch, past).
Proof.
  intros H w past. unfold signMessageUsingWebAuthn. rewrite H. reflexivity.
Qed.

(** The one call of an accepted message: the authenticator, with the
    challenge made of the formatted message. *)
Lemma signing_request w message url chainId allowCredentials f
      content bytes challenge :
  messageContent message = Ok content ->
  hexStringToUint8Array (formatMessage content) = Ok bytes ->
  base64FromArrayBuffer bytes true = Ok challenge ->
  calls w (signMessageUsingWebAuthn message url chainId allowCredentials f)
  = [EvAuthenticate (authenticatorOf f)
       (assertionOptions challenge allowCredentials)
       (on_authenticate w [] (authenticatorOf f)
          (assertionOptions challenge allowCredentials))].
Proof.
  intros Hc Hb Hch. unfold calls, signMessageUsingWebAuthn.
  rewrite Hc. cbn. rewrite Hb. cbn. rewrite Hch. cbn.
  destruct f as [g|]; cbn;
    match goal with
    | |- context [on_authenticate ?w ?p ?a ?o] =>
        destruct (on_authenticate w p a o)
    end; try reflexivity;
    destruct (encodeAssertion chainId _); reflexivity.
Qed.

(** A byte-array message [1, 2] has the text "1,2" decoded as if it were
    hexadecimal. *)
Lemma byte_array_request w url chainId allowCredentials f bytes challenge :
  hexStringToUint8Array "1,2" = Ok bytes ->
  base64FromArrayBuffer bytes true = Ok challenge ->
  calls w (signMessageUsingWebAuthn (MsgObject (Some (RawBytes [x01; x02])))
             url chainId allowCredentials f)
  = [EvAuthenticate (authenticatorOf f)
       (assertionOptions challenge allowCredentials)
       (on_authenticate w [] (authenticatorOf f)
          (assertionOptions challenge allowCredentials))].
Proof.
  intros Hb Hch.
  apply (signing_request w _ url chainId allowCredentials f "1,2" bytes challenge);
    [reflexivity|exact Hb|exact Hch].
Qed.

(** Both dummy signatures encode, to different bytes: the third word of
    the one is 0, of the other 1. *)
Lemma dummySignature_words :
  exists sig0 sig1,
    dummySignature 0 = Ok sig0 /\ word_at 2 sig0 = Ok 0 /\
    dummySignature 1 = Ok sig1 /\ word_at 2 sig1 = Ok 1.
Proof.
  assert (Had : exists ad, dummyAuthenticatorData = bytesToHex ad).
  { exists (match hexToBytes dummyAuthenticatorData with
            | Ok b => b | Err _ => [] end).
    vm_compute. reflexivity. }
  destruct Had as [ad Had].
  assert (H0 : in_uint256 0) by (unfold in_uint256; lia).
  assert (H1 : in_uint256 1) by (unfold in_uint256; lia).
  assert (Hr : in_uint256 dummyR) by (unfold in_uint256, dummyR; lia).
  assert (Hs : in_uint256 dummyS) by (unfold in_uint256, dummyS; lia).
  unfold dummySignature. rewrite Had.
  do 2 eexists.
  split; [apply signature_layout; assumption|].
  split; [apply (signatureBytes_words ad _ 0 dummyR dummyS false); assumption|].
  split; [apply signature_layout; assumption|].
  apply (signatureBytes_words ad _ 1 dummyR dummyS false); assumption.
Qed.

End Signing.

(** * The claims *)

Import Utils ToWebAuthnKey ToPasskeyValidator.

(** C1. Low-S normalisation in the codec path of
    [signMessageUsingWebAuthn]: when the authenticator answers a signing
    request with an assertion whose signature parses to [(r, s)], the [s]
    handed to the encoder is [curveOrder - s] if [s] exceeds half the curve
    order and [s] itself otherwise, so it never exceeds half the curve order;
    and when the values fit a uint256 the call returns an encoding whose
    fifth word is that normalised [s]. *)
Theorem low_s_normalization {ext : Externals}
  w message url chainId allowCredentials f cred ad cdj loc r s :
  asserts w message allowCredentials f cred ->
  decodes cred ad cdj loc r s ->
  outcome w (signMessageUsingWebAuthn message url chainId allowCredentials f)
  = Abi.encodeAbiParameters
      (signatureTuple (uint8ArrayToHexString ad) cdj loc r (normalizeS s)
         (isRIP7212SupportedNetwork chainId)) /\
  (s > curveOrder / 2 -> normalizeS s = curveOrder - s) /\
  (s <= curveOrder / 2 -> normalizeS s = s) /\
  normalizeS s <= curveOrder / 2 /\
  (in_uint256 loc -> in_uint256 r -> in_uint256 (normalizeS s) ->
   exists sig,
     outcome w (signMessageUsingWebAuthn message url chainId allowCredentials f)
     = Ok sig /\
     word_at 4 sig = Ok (normalizeS s)).
Proof.
  intros Ha Hd.
  rewrite (signMessage_run _ _ _ _ _ _ _ Ha), (encodeAssertion_steps _ _ _ _ _ _ _ Hd).
  split; [reflexivity|].
  split; [apply normalizeS_high|].
  split; [apply normalizeS_low|].
  split; [apply normalizeS_bound|].
  intros Hl Hr Hs. eexists. split.
  - apply signature_layout; assumption.
  - apply (signatureBytes_words ad cdj loc r (normalizeS s)); assumption.
Qed.

Lemma low_s_normalization_witness :
  exists sig,
    outcome (Double.world Double.verifiedAnswer 1)
      (signMessageUsingWebAuthn (ext := Double.externals)
         (MsgString "0x0102") Double.serverUrl 1 None None) = Ok sig /\
    word_at 4 sig = Ok 1.
Proof.
  destruct (low_s_normalization (ext := Double.externals)
              (Double.world Double.verifiedAnswer 1)
              (MsgString "0x0102") Double.serverUrl 1 None None
              Double.loginCredential
              (match hexToBytes dummyAuthenticatorData with Ok b => b | Err _ => [] end)
              dummyClientDataJSON 1 1 (curveOrder - 1))
    as (_ & _ & _ & _ & H).
  - exists "0x0102", [x01; x02], "AQI". repeat split; reflexivity.
  - repeat split; try reflexivity.
    eexists. split; vm_compute; reflexivity.
  - apply H; vm_compute; split; congruence.
Defined.

(** C2. Every key that [toWebAuthnKey] builds from a ceremony carries, as
    [authenticatorIdHash], the Keccak-256 hash (as a hex string) of the bytes
    that [credId] decodes to; the hash is a function of [credId] alone: two
    keys built with the same [credId], in whatever world and mode, carry the
    same hash. *)
Theorem authenticatorIdHash_of_credId {ext : Externals} w p k :
  ToWebAuthnKey.webAuthnKey p = None ->
  outcome w (toWebAuthnKey p) = Ok k ->
  (exists idBytes,
     b64ToBytes (credId k) = Ok idBytes /\
     authenticatorIdHash k = bytesToHex (keccak_256 idBytes)) /\
  (forall w' p' k',
     ToWebAuthnKey.webAuthnKey p' = None ->
     outcome w' (toWebAuthnKey p') = Ok k' ->
     credId k' = credId k ->
     authenticatorIdHash k' = authenticatorIdHash k).
Proof.
  intros Hp Hk.
  destruct (toWebAuthnKey_success w p k Hp Hk) as (c & _ & Hc).
  destruct (keyOfCeremony_hash c k Hc) as (idBytes & Hid & Hh).
  split; [exists idBytes; split; assumption|].
  intros w' p' k' Hp' Hk' Hcred.
  destruct (toWebAuthnKey_success w' p' k' Hp' Hk') as (c' & _ & Hc').
  destruct (keyOfCeremony_hash c' k' Hc') as (idBytes' & Hid' & Hh').
  rewrite Hcred, Hid in Hid'. injection Hid' as <-.
  now rewrite Hh, Hh'.
Qed.

Lemma authenticatorIdHash_of_credId_witness :
  exists k,
    outcome (Double.world Double.verifiedAnswer 1)
      (toWebAuthnKey (ext := Double.externals)
         (Double.params ModeRegister)) = Ok k /\
    b64ToBytes (Externals := Double.externals) (credId k) = Ok [x01; x02; x03] /\
    authenticatorIdHash k =
    bytesToHex (keccak_256 (Externals := Double.externals) [x01; x02; x03]).
Proof.
  eexists. split; [reflexivity|].
  destruct (authenticatorIdHash_of_credId (ext := Double.externals)
              (Double.world Double.verifiedAnswer 1)
              (Double.params ModeRegister) _ eq_refl eq_refl)
    as ((idBytes & Hid & Hh) & _).
  split; [reflexivity|].
  rewrite Hh. f_equal. f_equal.
  cbn in Hid. injection Hid as <-. reflexivity.
Defined.

(** C6. In login mode, once /api/auth/complete has answered with a value
    that is absent or carries no access token, the ceremony fails with
    "Login not verified" and [toWebAuthnKey] fails with the same error,
    returning no key. *)
Theorem login_not_verified {ext : Externals} w p init r res tr :
  mode p = ModeLogin ->
  run w (loginOrRegisterWithWebAuthn p) [] = (res, tr) ->
  In (EvFetch (ToWebAuthnKey.passkeyServerUrl p ++ "/api/auth/complete")
        init (Ok r)) tr ->
  has_access_token r = false ->
  res = Err LoginNotVerified /\
  (ToWebAuthnKey.webAuthnKey p = None ->
   outcome w (toWebAuthnKey p) = Err LoginNotVerified).
Proof.
  intros Hmode Hrun Hin Hr.
  assert (Hres : res = Err LoginNotVerified)
    by (eapply login_unverified; eassumption).
  split; [exact Hres|].
  intro Hk. subst res. eapply toWebAuthnKey_failure; eassumption.
Qed.

Lemma login_not_verified_witness :
  outcome (Double.world (JObj [("publicKeyX", JStr "0x01")]) 1)
    (toWebAuthnKey (ext := Double.externals) (Double.params ModeLogin))
  = Err LoginNotVerified.
Proof.
  eapply (login_not_verified (ext := Double.externals)
            (Double.world (JObj [("publicKeyX", JStr "0x01")]) 1)
            (Double.params ModeLogin) _
            (JObj [("publicKeyX", JStr "0x01")])).
  - reflexivity.
  - reflexivity.
  - cbn. right. right. left. reflexivity.
  - reflexivity.
  - reflexivity.
Defined.

(** C7. In register mode, once /api/users/register/complete has answered
    with a value whose [verified] flag is falsy, the ceremony fails with
    "Registration not verified"; in either mode, once the [complete] call has
    answered with a verified value that lacks [publicKeyX] or [publicKeyY],
    it fails with the missing-public-key error.  In both cases the result is
    an error, so no key material is returned. *)
Theorem ceremony_failures :
  (forall w p init r res tr,
     mode p = ModeRegister ->
     run w (loginOrRegisterWithWebAuthn p) [] = (res, tr) ->
     In (EvFetch (ToWebAuthnKey.passkeyServerUrl p
                  ++ "/api/users/register/complete") init (Ok r)) tr ->
     falsy_prop r "verified" = true ->
     res = Err RegistrationNotVerified) /\
  (forall w p init r res tr,
     run w (loginOrRegisterWithWebAuthn p) [] = (res, tr) ->
     In (EvFetch (completeUrl p) init (Ok r)) tr ->
     verified (mode p) r = true ->
     truthy_prop r "publicKeyX" && truthy_prop r "publicKeyY" = false ->
     res = Err MissingPublicKey).
Proof.
  split.
  - intros. eapply register_unverified; eassumption.
  - intros. eapply ceremony_without_public_key; eassumption.
Qed.

Lemma ceremony_failures_witness :
  fst (run (Double.world (JObj [("verified", JBool false)]) 1)
         (loginOrRegisterWithWebAuthn (Double.params ModeRegister)) [])
  = Err RegistrationNotVerified /\
  fst (run (Double.world (JObj [("accessToken", JStr "t"); ("publicKeyX", JStr "0x01")]) 1)
         (loginOrRegisterWithWebAuthn (Double.params ModeLogin)) [])
  = Err MissingPublicKey /\
  fst (run (Double.world (JObj [("verified", JBool true); ("publicKeyY", JStr "0x02")]) 1)
         (loginOrRegisterWithWebAuthn (Double.params ModeRegister)) [])
  = Err MissingPublicKey.
Proof.
  destruct ceremony_failures as [Hunverified Hkeyless].
  split; [|split].
  - eapply (Hunverified _ (Double.params ModeRegister) _
              (JObj [("verified", JBool false)])).
    + reflexivity.
    + apply surjective_pairing.
    + cbn. right. right. left. reflexivity.
    + reflexivity.
  - eapply (Hkeyless _ (Double.params ModeLogin) _
              (JObj [("accessToken", JStr "t"); ("publicKeyX", JStr "0x01")])).
    + apply surjective_pairing.
    + cbn. right. right. left. reflexivity.
    + reflexivity.
    + reflexivity.
  - eapply (Hkeyless _ (Double.params ModeRegister) _
              (JObj [("verified", JBool true); ("publicKeyY", JStr "0x02")])).
    + apply surjective_pairing.
    + cbn. right. right. left. reflexivity.
    + reflexivity.
    + reflexivity.
Defined.

(** C10. When the [webAuthnKey] argument is supplied, [toWebAuthnKey]
    returns that very key and makes no call at all, neither to the passkey
    server nor to the authenticator, whatever the mode, the passkey name, the
    server address and the callback are. *)
Theorem toWebAuthnKey_supplied {ext : Externals} name url k m f w past :
  run w (toWebAuthnKey
           {| passkeyName := name; ToWebAuthnKey.passkeyServerUrl := url;
              ToWebAuthnKey.webAuthnKey := Some k; mode := m;
              ToWebAuthnKey.signWithAuthenticator := f |}) past
  = (Ok k, past).
Proof. reflexivity. Qed.

(** C5. When the authenticator answers a signing request with an assertion
    whose fields can be read, [signMessageUsingWebAuthn] returns the ABI
    encoding of the tuple (authenticatorData, clientDataJSON,
    responseTypeLocation, r, s, usePrecompiled), in that order, where
    clientDataJSON is the text [atob] gives for the assertion's field and
    usePrecompiled is true exactly for the chain ids of the static list; when
    the integers fit a uint256 the result is the head-and-tail layout of
    these six values. *)
Theorem signature_is_encoded_tuple {ext : Externals}
  w message url chainId allowCredentials f cred ad cdj loc r s :
  asserts w message allowCredentials f cred ->
  decodes cred ad cdj loc r s ->
  outcome w (signMessageUsingWebAuthn message url chainId allowCredentials f)
  = Abi.encodeAbiParameters
      [Abi.Bytes (uint8ArrayToHexString ad); Abi.Str cdj; Abi.Uint256 loc;
       Abi.Uint256 r; Abi.Uint256 (normalizeS s);
       Abi.Bool (isRIP7212SupportedNetwork chainId)] /\
  atob (clientDataJSON (auth_response cred)) = Ok cdj /\
  (isRIP7212SupportedNetwork chainId = true <-> In chainId rip7212Networks) /\
  (in_uint256 loc -> in_uint256 r -> in_uint256 (normalizeS s) ->
   outcome w (signMessageUsingWebAuthn message url chainId allowCredentials f)
   = Ok (bytesToHex
           (signatureBytes ad cdj loc r (normalizeS s)
              (isRIP7212SupportedNetwork chainId)))).
Proof.
  intros Ha Hd.
  rewrite (signMessage_run _ _ _ _ _ _ _ Ha), (encodeAssertion_steps _ _ _ _ _ _ _ Hd).
  split; [reflexivity|].
  split; [apply Hd|].
  split; [apply isRIP7212SupportedNetwork_spec|].
  intros Hl Hr Hs. apply signature_layout; assumption.
Qed.

Lemma signature_is_encoded_tuple_witness :
  outcome (Double.world Double.verifiedAnswer 7560)
    (signMessageUsingWebAuthn (ext := Double.externals)
       (MsgObject (Some (RawValue (JStr "0x0102")))) Double.serverUrl 7560
       None (Some (Injected "startAuthentication")))
  = Ok (bytesToHex
          (signatureBytes
             (match hexToBytes dummyAuthenticatorData with Ok b => b | Err _ => [] end)
             dummyClientDataJSON 1 1 1 true)).
Proof.
  destruct (signature_is_encoded_tuple (ext := Double.externals)
              (Double.world Double.verifiedAnswer 7560)
              (MsgObject (Some (RawValue (JStr "0x0102")))) Double.serverUrl 7560
              None (Some (Injected "startAuthentication"))
              Double.loginCredential
              (match hexToBytes dummyAuthenticatorData with Ok b => b | Err _ => [] end)
              dummyClientDataJSON 1 1 (curveOrder - 1))
    as (_ & _ & _ & H).
  - exists "0x0102", [x01; x02], "AQI". repeat split; reflexivity.
  - repeat split; try reflexivity.
    eexists. split; vm_compute; reflexivity.
  - apply H; vm_compute; split; congruence.
Defined.

(** C8. On a validator made by either constructor, [signTransaction]
    throws SignTransactionNotSupportedBySmartAccount for every input: run in
    any world after any history, it fails at once and adds no call to the
    history. *)
Theorem signTransaction_always_unsupported {ext : Externals}
  w client p serializedData entryPoint f v :
  built w client p v \/ restored w client serializedData entryPoint f v ->
  forall tx options w' past,
    run w' (signTransaction v tx options) past
    = (Err SigningModeUnsupported, past).
Proof.
  intros [H|H] tx options w' past.
  - now rewrite (built_signTransaction _ _ _ _ tx options H).
  - now rewrite (restored_signTransaction _ _ _ _ _ _ tx options H).
Qed.

Lemma signTransaction_always_unsupported_witness :
  exists v,
    built (ext := Double.externals) (Double.world JNull 1) Double.client
      Double.validatorParams v /\
    run (Double.world JNull 1) (signTransaction v (JObj []) JUndefined) []
    = (Err SigningModeUnsupported, []).
Proof.
  eexists. split; [reflexivity|].
  apply (signTransaction_always_unsupported (ext := Double.externals)
           (Double.world JNull 1) Double.client Double.validatorParams
           EmptyString EmptyString None _ (or_introl eq_refl)).
Defined.

(** C9. Round trip: if the serialised configuration of a validator made by
    [toPasskeyValidator] reads back as the configuration that was written,
    then [deserializePasskeyValidator] on the output of [getSerializedData],
    with a client that reports a chain id, returns a validator whose
    [getEnableData] is the same as the original's, so both give the same
    bytes in every world. *)
Theorem enable_data_round_trip {ext : Externals}
  w client p v w' client' entryPoint f chainId :
  built w client p v ->
  round_trips (serializedDataOf p) ->
  on_getChainId w' [] client' = Ok chainId ->
  exists v',
    restored w' client' (getSerializedData v tt) entryPoint f v' /\
    getEnableData v' tt = getEnableData v tt /\
    forall w'', outcome w'' (getEnableData v' tt) = outcome w'' (getEnableData v tt).
Proof.
  intros Hb Hround Hchain.
  destruct (built_getEnableData _ _ _ _ Hb) as [He Hs].
  rewrite Hs.
  destruct (restore_succeeds w' client' _ entryPoint f _ chainId Hround Hchain)
    as [v' Hv'].
  exists v'. split; [exact Hv'|].
  destruct (restored_getEnableData _ _ _ _ _ _ Hv') as (data & Hd & He').
  rewrite Hround in Hd. injection Hd as <-.
  assert (Heq : getEnableData v' tt = getEnableData v tt)
    by (rewrite He, He'; reflexivity).
  split; [exact Heq|]. intro w''. now rewrite Heq.
Qed.

Lemma enable_data_round_trip_witness :
  exists v v',
    built (ext := Double.externals) (Double.world JNull 1) Double.client
      Double.validatorParams v /\
    restored (ext := Double.externals) (Double.world JNull 5) Double.client
      (getSerializedData v tt) "0x5FF137D4b0FDCD49DcA30c7CF57E578a026d2789"
      None v' /\
    getEnableData v' tt = getEnableData v tt.
Proof.
  eexists.
  destruct (enable_data_round_trip (ext := Double.externals)
              (Double.world JNull 1) Double.client Double.validatorParams _
              (Double.world JNull 5) Double.client
              "0x5FF137D4b0FDCD49DcA30c7CF57E578a026d2789" None 5
              eq_refl eq_refl eq_refl)
    as (v' & Hr & He & _).
  exists v'. split; [reflexivity|]. split; [exact Hr|exact He].
Defined.

(** C3. On a validator restored by [deserializePasskeyValidator],
    [getDummySignature] returns the same bytes at every call, and the
    responseTypeLocation word of these bytes is 1, not the 0 that a
    validator made by [toPasskeyValidator] encodes. *)
Theorem restored_dummy_signature {ext : Externals}
  w client serializedData entryPoint f v :
  restored w client serializedData entryPoint f v ->
  exists sig,
    (forall w' past, run w' (getDummySignature v tt) past = (Ok sig, past)) /\
    word_at 2 sig = Ok 1 /\
    (forall w0 client0 p v0,
       built w0 client0 p v0 ->
       exists sig0,
         (forall w' past, run w' (getDummySignature v0 tt) past = (Ok sig0, past)) /\
         word_at 2 sig0 = Ok 0 /\
         sig0 <> sig).
Proof.
  intro Hv.
  destruct dummySignature_words as (sig0 & sig1 & E0 & W0 & E1 & W1).
  exists sig1. split; [|split].
  - intros w' past.
    rewrite (restored_getDummySignature _ _ _ _ _ _ Hv), E1. reflexivity.
  - exact W1.
  - intros w0 client0 p v0 Hv0. exists sig0. split; [|split].
    + intros w' past.
      rewrite (built_getDummySignature _ _ _ _ Hv0), E0. reflexivity.
    + exact W0.
    + intro Heq. rewrite Heq, W1 in W0. discriminate W0.
Qed.

Lemma restored_dummy_signature_witness :
  exists v sig,
    restored (ext := Double.externals) (Double.world JNull 1) Double.client
      (Double.serialize (serializedDataOf (ext := Double.externals)
                           Double.validatorParams))
      "0x5FF137D4b0FDCD49DcA30c7CF57E578a026d2789" None v /\
    outcome (Double.world JNull 1) (getDummySignature v tt) = Ok sig /\
    word_at 2 sig = Ok 1.
Proof.
  eexists.
  destruct (restored_dummy_signature (ext := Double.externals)
              (Double.world JNull 1) Double.client
              (Double.serialize (serializedDataOf (ext := Double.externals)
                                   Double.validatorParams))
              "0x5FF137D4b0FDCD49DcA30c7CF57E578a026d2789" None _ eq_refl)
    as (sig & Hrun & Hword & _).
  exists sig. split; [reflexivity|]. split; [|exact Hword].
  unfold outcome. now rewrite Hrun.
Defined.

(** C4. A message whose [raw] is the byte array [1, 2] is accepted, and the
    text taken from it is "1,2", the elements in decimal joined by a comma:
    it has no 0x to strip and is not a string of hexadecimal digits. *)
Theorem byte_array_message_is_not_hex :
  messageContent (MsgObject (Some (RawBytes [x01; x02]))) = Ok "1,2" /\
  formatMessage "1,2" = "1,2" /\
  isHexString "1,2" = false.
Proof. repeat split. Qed.

(** * Further properties *)

Lemma Ok_inj {A} (a b : A) : Ok a = Ok b -> a = b.
Proof. intro H. now injection H. Qed.

Lemma eqb_false_nonempty (s : string) :
  String.eqb s EmptyString = false -> s <> EmptyString.
Proof. intros H E. subst. discriminate H. Qed.

(** ** The ceremony, call by call *)

Section CeremonyTraces.
Import ToWebAuthnKey.

Ltac step H :=
  match type of H with
  | context [on_fetch ?w ?p ?u ?i] => destruct (on_fetch w p u i) eqn:?
  | context [on_authenticate ?w ?p ?u ?i] =>
      destruct (on_authenticate w p u i) eqn:?
  | context [on_register ?w ?p ?u ?i] => destruct (on_register w p u i) eqn:?
  | context [get_prop ?v ?k] => destruct (get_prop v k) eqn:?
  | context [truthy ?v] => destruct (truthy v) eqn:?
  | context [String.eqb ?a ?b] => destruct (String.eqb a b) eqn:?
  end; cbn in H.

(** Every run of the ceremony, one answer of the world at a time. *)
Ltac walk Hrun := cbn in Hrun; repeat (step Hrun).

(** The runs that return a result. *)
Ltac walk_ok Hrun :=
  walk Hrun; try discriminate Hrun; injection Hrun; intros; subst.

(** All the runs, with their outcome and calls. *)
Ltac walk_all Hrun := walk Hrun; injection Hrun; intros; subst.

Ltac pick Hin :=
  cbn in Hin;
  repeat (destruct Hin as [Hin|Hin];
          [try discriminate Hin; try (injection Hin; intros; subst)|]);
  try contradiction;
  try match goal with
      | H : _ ++ _ = _ ++ _ |- _ => apply append_inv_head in H; discriminate H
      end.

Ltac use_answers H :=
  repeat match goal with
         | E : truthy _ = _ |- _ =>
             tryif constr_eq E H then fail else rewrite E in H
         | E : get_prop _ _ = _ |- _ =>
             tryif constr_eq E H then fail else rewrite E in H
         end;
  cbn in H; try discriminate H;
  try match goal with
      | E1 : truthy ?v = true, E2 : get_prop ?v _ = Err _ |- _ =>
          destruct v; discriminate
      | E1 : get_prop ?v _ = Ok _, E2 : get_prop ?v _ = Err _ |- _ =>
          destruct v; discriminate
      end.

(** A ceremony that returns has made two requests and one authenticator
    call, and returns truthy coordinates with the id the authenticator
    gave. *)
Lemma ceremony_success w p c tr :
  run w (loginOrRegisterWithWebAuthn p) [] = (Ok c, tr) ->
  truthy (publicKeyX c) = true /\ truthy (publicKeyY c) = true /\
  ceremonyCredId c <> EmptyString /\
  count is_fetch tr = 2%nat /\ count is_authenticator tr = 1%nat /\
  exists ev, In ev tr /\ returned_id ev = Some (ceremonyCredId c).
Proof.
  intro Hrun. unfold loginOrRegisterWithWebAuthn in Hrun.
  destruct (mode p); walk_ok Hrun; cbn;
    (repeat split; try assumption; try reflexivity;
     [now apply eqb_false_nonempty|]);
    eexists; (split; [right; left; reflexivity|reflexivity]).
Qed.

(** X1. A login that returns has made exactly four calls, in this order:
    a POST without body to /api/auth/start; the authenticator callback, with
    the [options] of the start answer; a POST to /api/auth/complete whose
    body carries the [requestId] of the start answer and the credential the
    authenticator gave; and a log of the answer.  That answer carries an
    access token, the returned coordinates are its [publicKeyX] and
    [publicKeyY], and the returned id is the credential's. *)
Theorem login_protocol w p c tr :
  mode p = ModeLogin ->
  run w (loginOrRegisterWithWebAuthn p) [] = (Ok c, tr) ->
  exists startAnswer options requestId cred r,
    tr = [EvFetch (passkeyServerUrl p ++ "/api/auth/start")
            {| method := "POST"; headers := jsonHeaders; body := None |}
            (Ok startAnswer);
          EvAuthenticate (signWithAuthenticator p) options (Ok cred);
          EvFetch (passkeyServerUrl p ++ "/api/auth/complete")
            {| method := "POST"; headers := jsonHeaders;
               body := Some (JObj [("requestId", requestId);
                                   ("authenticationResponse",
                                    authenticationToJs cred)]) |}
            (Ok r);
          EvLog r] /\
    get_prop startAnswer "options" = Ok options /\
    get_prop startAnswer "requestId" = Ok requestId /\
    has_access_token r = true /\
    get_prop r "publicKeyX" = Ok (publicKeyX c) /\
    get_prop r "publicKeyY" = Ok (publicKeyY c) /\
    ceremonyCredId c = auth_id cred.
Proof.
  intros Hmode Hrun.
  unfold loginOrRegisterWithWebAuthn in Hrun. rewrite Hmode in Hrun.
  walk_ok Hrun.
  do 5 eexists. split; [reflexivity|].
  unfold has_access_token, truthy_prop.
  repeat match goal with E : _ = _ |- _ => rewrite E end.
  repeat split; reflexivity.
Qed.

Lemma login_protocol_witness :
  exists c tr,
    run (Double.world Double.verifiedAnswer 1)
      (loginOrRegisterWithWebAuthn (Double.params ModeLogin)) [] = (Ok c, tr) /\
    List.length tr = 4%nat.
Proof.
  do 2 eexists. split; [reflexivity|].
  destruct (login_protocol (Double.world Double.verifiedAnswer 1)
              (Double.params ModeLogin) _ _ eq_refl eq_refl)
    as (a & o & i & cred & r & Htr & _).
  rewrite Htr. reflexivity.
Defined.

(** X2. A registration that returns has made exactly three calls, in this
    order: a POST to /api/users/register/start whose body is the user name;
    the authenticator callback, with the [options] of the start answer; and a
    POST to /api/users/register/complete whose body carries the credential
    and the [requestId] of the start answer.  That answer has a truthy
    [verified], the returned coordinates are its [publicKeyX] and
    [publicKeyY], and the returned id is the credential's. *)
Theorem register_protocol w p c tr :
  mode p = ModeRegister ->
  run w (loginOrRegisterWithWebAuthn p) [] = (Ok c, tr) ->
  exists startAnswer options requestId cred r,
    tr = [EvFetch (passkeyServerUrl p ++ "/api/users/register/start")
            {| method := "POST"; headers := jsonHeaders;
               body := Some (JObj [("username", JStr (passkeyName p))]) |}
            (Ok startAnswer);
          EvRegister (signWithAuthenticator p) options (Ok cred);
          EvFetch (passkeyServerUrl p ++ "/api/users/register/complete")
            {| method := "POST"; headers := jsonHeaders;
               body := Some (JObj [("registrationResponse",
                                    registrationToJs cred);
                                   ("requestId", requestId)]) |}
            (Ok r)] /\
    get_prop startAnswer "options" = Ok options /\
    get_prop startAnswer "requestId" = Ok requestId /\
    truthy_prop r "verified" = true /\
    get_prop r "publicKeyX" = Ok (publicKeyX c) /\
    get_prop r "publicKeyY" = Ok (publicKeyY c) /\
    ceremonyCredId c = reg_id cred.
Proof.
  intros Hmode Hrun.
  unfold loginOrRegisterWithWebAuthn in Hrun. rewrite Hmode in Hrun.
  walk_ok Hrun.
  do 5 eexists. split; [reflexivity|].
  unfold truthy_prop.
  repeat match goal with E : _ = _ |- _ => rewrite E end.
  repeat split; reflexivity.
Qed.

Lemma register_protocol_witness :
  exists c tr,
    run (Double.world Double.verifiedAnswer 1)
      (loginOrRegisterWithWebAuthn (Double.params ModeRegister)) [] = (Ok c, tr) /\
    List.length tr = 3%nat.
Proof.
  do 2 eexists. split; [reflexivity|].
  destruct (register_protocol (Double.world Double.verifiedAnswer 1)
              (Double.params ModeRegister) _ _ eq_refl eq_refl)
    as (a & o & i & cred & r & Htr & _).
  rewrite Htr. reflexivity.
Defined.

(** X3. No run of the ceremony, whatever the world answers, makes more
    than two requests to the server or more than one call to the
    authenticator; the first call is always the request to the start
    address, and when that request is rejected nothing follows it. *)
Theorem ceremony_call_bound w p :
  (count is_fetch (calls w (loginOrRegisterWithWebAuthn p)) <= 2)%nat /\
  (count is_authenticator (calls w (loginOrRegisterWithWebAuthn p)) <= 1)%nat /\
  exists init answer rest,
    calls w (loginOrRegisterWithWebAuthn p)
    = EvFetch (startUrl p) init answer :: rest /\
    (forall e, answer = Err e -> rest = []).
Proof.
  unfold calls, startUrl.
  destruct (run w (loginOrRegisterWithWebAuthn p) []) as [res tr] eqn:Hrun.
  unfold loginOrRegisterWithWebAuthn in Hrun.
  destruct (mode p); walk_all Hrun; cbn;
    (split; [lia|split; [lia|]]);
    do 3 eexists; (split; [reflexivity|]); intros e0 He0;
    try discriminate He0; reflexivity.
Qed.

Lemma ceremony_call_bound_witness :
  (count is_fetch
     (calls (Double.cancelling Double.verifiedAnswer 1)
        (loginOrRegisterWithWebAuthn (Double.params ModeRegister))) <= 2)%nat /\
  (count is_authenticator
     (calls (Double.cancelling Double.verifiedAnswer 1)
        (loginOrRegisterWithWebAuthn (Double.params ModeRegister))) <= 1)%nat.
Proof.
  destruct (ceremony_call_bound (Double.cancelling Double.verifiedAnswer 1)
              (Double.params ModeRegister)) as (Hf & Ha & _).
  split; [exact Hf|exact Ha].
Defined.

(** X4. When the authenticator rejects the request (the user dismisses the
    prompt), the ceremony fails with that very rejection and the server is
    not contacted again: the run holds the start request only. *)
Theorem authenticator_rejection w p f o e res tr :
  run w (loginOrRegisterWithWebAuthn p) [] = (res, tr) ->
  In (EvAuthenticate f o (Err e)) tr \/ In (EvRegister f o (Err e)) tr ->
  res = Err e /\ count is_fetch tr = 1%nat.
Proof.
  intros Hrun Hin. unfold loginOrRegisterWithWebAuthn in Hrun.
  destruct (mode p); walk_all Hrun;
    destruct Hin as [Hin|Hin]; pick Hin; split; reflexivity.
Qed.

Lemma authenticator_rejection_witness :
  run (Double.cancelling Double.verifiedAnswer 1)
    (loginOrRegisterWithWebAuthn (Double.params ModeLogin)) []
  = (Err (Rejected "NotAllowedError"),
     snd (run (Double.cancelling Double.verifiedAnswer 1)
            (loginOrRegisterWithWebAuthn (Double.params ModeLogin)) [])) /\
  count is_fetch
    (snd (run (Double.cancelling Double.verifiedAnswer 1)
            (loginOrRegisterWithWebAuthn (Double.params ModeLogin)) [])) = 1%nat.
Proof.
  destruct (authenticator_rejection (Double.cancelling Double.verifiedAnswer 1)
              (Double.params ModeLogin)
              (Injected "startAuthentication")
              (JObj [("challenge", JStr "Y2hhbGxlbmdl")])
              (Rejected "NotAllowedError") _ _ (surjective_pairing _))
    as [Hres Hcount].
  - left. cbn. right. left. reflexivity.
  - split; [reflexivity|exact Hcount].
Defined.

(** X5. A verified answer with both coordinates does not save a ceremony
    whose authenticator returned an empty credential id: it fails with the
    missing-credential-id error. *)
Theorem empty_credential_id w p init r ev res tr :
  run w (loginOrRegisterWithWebAuthn p) [] = (res, tr) ->
  In ev tr -> returned_id ev = Some EmptyString ->
  In (EvFetch (completeUrl p) init (Ok r)) tr ->
  verified (mode p) r = true ->
  truthy_prop r "publicKeyX" && truthy_prop r "publicKeyY" = true ->
  res = Err MissingCredentialId.
Proof.
  intros Hrun Hev Hid Hin Hv Hk. unfold completeUrl in Hin.
  unfold loginOrRegisterWithWebAuthn in Hrun.
  destruct (mode p); walk_all Hrun; pick Hin;
    unfold verified, has_access_token, truthy_prop in Hv, Hk;
    try reflexivity; use_answers Hv; use_answers Hk;
    cbn in Hev;
    repeat (destruct Hev as [Hev|Hev]; [subst ev|]); try contradiction;
    cbn in Hid; try discriminate Hid;
    injection Hid as Hid; rewrite Hid in *; discriminate.
Qed.

Lemma empty_credential_id_witness :
  fst (run (Double.anonymous Double.verifiedAnswer 1)
         (loginOrRegisterWithWebAuthn (Double.params ModeRegister)) [])
  = Err MissingCredentialId.
Proof.
  eapply (empty_credential_id (Double.anonymous Double.verifiedAnswer 1)
            (Double.params ModeRegister) _ Double.verifiedAnswer
            (EvRegister (Injected "startAuthentication")
               (JObj [("challenge", JStr "Y2hhbGxlbmdl")])
               (Ok {| reg_id := EmptyString;
                      reg_clientDataJSON := EmptyString;
                      reg_attestationObject := EmptyString |}))).
  - apply surjective_pairing.
  - cbn. right. left. reflexivity.
  - reflexivity.
  - cbn. right. right. left. reflexivity.
  - reflexivity.
  - reflexivity.
Defined.

(** X6. A start answer that is null or undefined makes the ceremony fail
    with a TypeError, raised when its [options] are read: the authenticator
    is never invoked and no second request is made. *)
Theorem null_start_answer w p init a res tr :
  run w (loginOrRegisterWithWebAuthn p) [] = (res, tr) ->
  In (EvFetch (startUrl p) init (Ok a)) tr ->
  a = JNull \/ a = JUndefined ->
  res = Err (TypeError "Cannot read properties of null or undefined") /\
  count is_authenticator tr = 0%nat /\ count is_fetch tr = 1%nat.
Proof.
  intros Hrun Hin Ha. unfold startUrl in Hin.
  unfold loginOrRegisterWithWebAuthn in Hrun.
  destruct (mode p); walk_all Hrun; pick Hin;
    destruct Ha; subst; try discriminate;
    match goal with E : get_prop _ "options" = Err _ |- _ =>
      cbn in E; injection E as <- end;
    repeat split; reflexivity.
Qed.

Lemma null_start_answer_witness :
  fst (run (Double.flat JNull)
         (loginOrRegisterWithWebAuthn (Double.params ModeLogin)) [])
  = Err (TypeError "Cannot read properties of null or undefined").
Proof.
  eapply (null_start_answer (Double.flat JNull) (Double.params ModeLogin) _ JNull).
  - apply surjective_pairing.
  - cbn. left. reflexivity.
  - left. reflexivity.
Defined.

(** X7. In register mode an answer of /api/users/register/complete that is
    null or undefined is not reported as an unverified registration: reading
    its [verified] flag throws a TypeError, which is the outcome. *)
Theorem register_null_answer w p init r res tr :
  mode p = ModeRegister ->
  run w (loginOrRegisterWithWebAuthn p) [] = (res, tr) ->
  In (EvFetch (completeUrl p) init (Ok r)) tr ->
  r = JNull \/ r = JUndefined ->
  res = Err (TypeError "Cannot read properties of null or undefined").
Proof.
  intros Hmode Hrun Hin Hr. unfold completeUrl in Hin.
  unfold loginOrRegisterWithWebAuthn in Hrun. rewrite Hmode in *.
  walk_all Hrun; pick Hin;
    destruct Hr; subst; try discriminate;
    match goal with E : get_prop _ _ = Err _ |- _ =>
      cbn in E; injection E as <- end; reflexivity.
Qed.

Lemma register_null_answer_witness :
  fst (run (Double.world JNull 1)
         (loginOrRegisterWithWebAuthn (Double.params ModeRegister)) [])
  = Err (TypeError "Cannot read properties of null or undefined").
Proof.
  eapply (register_null_answer (Double.world JNull 1)
            (Double.params ModeRegister) _ JNull).
  - reflexivity.
  - apply surjective_pairing.
  - cbn. right. right. left. reflexivity.
  - left. reflexivity.
Defined.

End CeremonyTraces.

(** ** The two key builders *)

Lemma hexDigitsFrom_byte (acc : Z) (b : byte) (s : string) :
  hexDigitsFrom acc (byteToHex b ++ s)
  = hexDigitsFrom (acc * 256 + Z.of_N (Byte.to_N b)) s.
Proof.
  pose proof (hex_of_byte_back b) as Hb.
  unfold byteToHex in *. cbn [append bytesOfHex hexDigitsFrom] in *.
  destruct (hexVal (hexDigit (Byte.to_N b / 16))) as [h|]; [|discriminate].
  destruct (hexVal (hexDigit (Byte.to_N b mod 16))) as [l|]; [|discriminate].
  destruct (Byte.of_N (16 * h + l)) as [b'|] eqn:E; [|discriminate].
  injection Hb as ->. apply Byte.to_of_N in E. rewrite E.
  f_equal. lia.
Qed.

Lemma hexDigitsFrom_hexOfBytes (bs : list byte) (acc : Z) :
  hexDigitsFrom acc (hexOfBytes bs)
  = Some (fold_left (fun a b => a * 256 + Z.of_N (Byte.to_N b)) bs acc).
Proof.
  revert acc. induction bs as [|b bs IH]; intro acc; [reflexivity|].
  cbn [hexOfBytes fold_left]. rewrite hexDigitsFrom_byte. apply IH.
Qed.

Lemma hexOfBytes_nonempty (b : byte) (bs : list byte) :
  exists c s, hexOfBytes (b :: bs) = String c s.
Proof. cbn [hexOfBytes]. unfold byteToHex. cbn [append]. eauto. Qed.

(** [BigInt] of the literal [0x] followed by the hex text of some bytes is
    their big-endian value, when there is at least one byte. *)
Lemma bigInt_of_hex_bytes (bs : list byte) :
  bs <> [] -> bigIntOfHexLiteral (hexOfBytes bs) = Ok (be_value bs).
Proof.
  destruct bs as [|b bs]; [congruence|]. intros _.
  unfold bigIntOfHexLiteral. rewrite hexDigitsFrom_hexOfBytes.
  destruct (hexOfBytes_nonempty b bs) as (c & s & ->). reflexivity.
Qed.

Lemma be_value_bound (bs : list byte) :
  0 <= be_value bs < 256 ^ Z.of_nat (List.length bs).
Proof.
  induction bs as [|b bs IH] using rev_ind; [cbn; lia|].
  rewrite be_value_snoc, length_app. cbn [List.length].
  replace (Z.of_nat (List.length bs + 1)) with (Z.succ (Z.of_nat (List.length bs)))
    by lia.
  rewrite Z.pow_succ_r by lia.
  pose proof (Byte.to_N_bounded b). lia.
Qed.

Section KeyBuilders.
Context {ext : Externals}.
Import Utils ToWebAuthnKey.

(** Without a supplied key, [toWebAuthnKey] is the ceremony followed by
    the pure conversion of its result. *)
Lemma toWebAuthnKey_run w p :
  ToWebAuthnKey.webAuthnKey p = None ->
  run w (toWebAuthnKey p) []
  = (bindR (fst (run w (loginOrRegisterWithWebAuthn p) [])) keyOfCeremony,
     snd (run w (loginOrRegisterWithWebAuthn p) [])).
Proof.
  intro Hp. unfold toWebAuthnKey. rewrite Hp.
  destruct (mode p); cbn [bind Monad_Prog]; rewrite run_bind;
    destruct (run w (loginOrRegisterWithWebAuthn p) []) as [[c|e] tr];
    cbn [fst snd bindR]; try reflexivity; apply run_lift.
Qed.

(** X8. Without a supplied key, [toWebAuthnKey] makes the calls of the
    ceremony and no other.  When it returns, its coordinates are [BigInt] of
    the ceremony's and its credential id is the ceremony's; when the ceremony
    returns and [BigInt] rejects a coordinate (the first, or else the
    second), [toWebAuthnKey] fails with that error. *)
Theorem toWebAuthnKey_adds_no_call w p :
  ToWebAuthnKey.webAuthnKey p = None ->
  calls w (toWebAuthnKey p) = calls w (loginOrRegisterWithWebAuthn p) /\
  (forall k,
     outcome w (toWebAuthnKey p) = Ok k ->
     exists c,
       outcome w (loginOrRegisterWithWebAuthn p) = Ok c /\
       BigInt (publicKeyX c) = Ok (pubX k) /\
       BigInt (publicKeyY c) = Ok (pubY k) /\
       credId k = ceremonyCredId c) /\
  (forall c e,
     outcome w (loginOrRegisterWithWebAuthn p) = Ok c ->
     BigInt (publicKeyX c) = Err e \/
     (exists x, BigInt (publicKeyX c) = Ok x) /\ BigInt (publicKeyY c) = Err e ->
     outcome w (toWebAuthnKey p) = Err e).
Proof.
  intro Hp. unfold calls, outcome.
  rewrite (toWebAuthnKey_run w p Hp). cbn [fst snd].
  split; [reflexivity|]. split.
  - intros k Hk.
    destruct (fst (run w (loginOrRegisterWithWebAuthn p) [])) as [c|e];
      [|discriminate Hk].
    exists c. split; [reflexivity|]. cbn [bindR] in Hk.
    unfold keyOfCeremony in Hk.
    destruct (BigInt (publicKeyX c)); [|discriminate Hk].
    destruct (BigInt (publicKeyY c)); [|discriminate Hk].
    destruct (b64ToBytes (ceremonyCredId c)); [|discriminate Hk].
    cbn [bindR] in Hk.
    destruct (keccak256 _); [|discriminate Hk].
    injection Hk as <-. repeat split; reflexivity.
  - intros c e Hc HB. rewrite Hc. cbn [bindR]. unfold keyOfCeremony.
    destruct HB as [HB|[[x Hx] HB]].
    + rewrite HB. reflexivity.
    + rewrite Hx, HB. reflexivity.
Qed.

End KeyBuilders.

Lemma toWebAuthnKey_adds_no_call_witness :
  calls (Double.world Double.verifiedAnswer 1)
    (ToWebAuthnKey.toWebAuthnKey (ext := Double.externals)
       (Double.params ToWebAuthnKey.ModeLogin))
  = calls (Double.world Double.verifiedAnswer 1)
      (ToWebAuthnKey.loginOrRegisterWithWebAuthn
         (Double.params ToWebAuthnKey.ModeLogin)).
Proof.
  exact (proj1 (toWebAuthnKey_adds_no_call (ext := Double.externals)
                  (Double.world Double.verifiedAnswer 1)
                  (Double.params ToWebAuthnKey.ModeLogin) eq_refl)).
Defined.

Section Details.
Context {ext : Externals} {crypto : Crypto}.
Import Utils ToWebAuthnKey KeyDetails.

(** Once the credential id decodes and the key is imported and exported,
    what is left of [toWebAuthnKeyDetails] is the log and the two
    conversions. *)
Lemma details_prefix pubKey credId idBytes key raw w past :
  b64ToBytes credId = Ok idBytes ->
  importKey (bufferFromBase64 pubKey) = Ok key ->
  exportKey key = Ok raw ->
  run w (toWebAuthnKeyDetails pubKey credId) past
  = run w
      (x <- lift (bigIntOfHexLiteral (hexOfBytes (firstn 32 (skipn 1 raw)))) ;;
       y <- lift (bigIntOfHexLiteral (hexOfBytes (skipn 33 raw))) ;;
       ret {| pubX := x; pubY := y; credId := credId;
              authenticatorIdHash := bytesToHex (keccak_256 idBytes) |})
      (past ++ [EvLog (JArr [JStr (hexOfBytes (firstn 32 (skipn 1 raw)));
                             JStr (hexOfBytes (skipn 33 raw))])]).
Proof.
  intros Hid Hkey Hraw. unfold toWebAuthnKeyDetails.
  rewrite Hid. cbn [lift bind Monad_Prog bindP].
  rewrite keccak256_of_bytes. cbn [lift bindP].
  rewrite Hkey. cbn [lift bindP]. rewrite Hraw. cbn [lift bindP consoleLog run].
  reflexivity.
Qed.

(** X9. When the credential id decodes and the imported key exports to a
    first byte followed by more than 32 bytes, [toWebAuthnKeyDetails]
    returns, having logged the two hex texts and done nothing else.  The
    first byte is not looked at; [pubX] is the big-endian value of the next
    32 bytes and so fits 256 bits; [pubY] is the value of all the bytes after
    them, which fits 256 bits when the export has at most 65 bytes; the hash
    is that of the decoded credential id. *)
Theorem details_of_raw_key pubKey credId idBytes key prefix rest w past :
  b64ToBytes credId = Ok idBytes ->
  importKey (bufferFromBase64 pubKey) = Ok key ->
  exportKey key = Ok (prefix :: rest) ->
  (32 < List.length rest)%nat ->
  let k := {| pubX := be_value (firstn 32 rest);
              pubY := be_value (skipn 32 rest);
              credId := credId;
              authenticatorIdHash := bytesToHex (keccak_256 idBytes) |} in
  run w (toWebAuthnKeyDetails pubKey credId) past
  = (Ok k, (past ++ [EvLog (JArr [JStr (hexOfBytes (firstn 32 rest));
                                  JStr (hexOfBytes (skipn 32 rest))])])%list) /\
  in_uint256 (pubX k) /\
  ((List.length rest <= 64)%nat -> in_uint256 (pubY k)).
Proof.
  intros Hid Hkey Hraw Hlen k.
  rewrite (details_prefix _ _ _ _ _ _ _ Hid Hkey Hraw).
  change (skipn 33 (prefix :: rest)) with (skipn 32 rest).
  change (skipn 1 (prefix :: rest)) with rest.
  assert (Hx : firstn 32 rest <> []).
  { intro E. apply (f_equal (@List.length byte)) in E.
    rewrite length_firstn in E. cbn [List.length] in E. lia. }
  assert (Hy : skipn 32 rest <> []).
  { intro E. apply (f_equal (@List.length byte)) in E.
    rewrite length_skipn in E. cbn [List.length] in E. lia. }
  rewrite (bigInt_of_hex_bytes _ Hx). cbn [lift bind Monad_Prog bindP].
  rewrite (bigInt_of_hex_bytes _ Hy).
  split; [reflexivity|]. subst k. cbn [pubX pubY]. unfold in_uint256. split.
  - pose proof (be_value_bound (firstn 32 rest)) as H.
    rewrite length_firstn in H.
    replace (Nat.min 32 (List.length rest)) with 32%nat in H by lia.
    change (256 ^ Z.of_nat 32) with (2 ^ 256) in H. exact H.
  - intro Hle. pose proof (be_value_bound (skipn 32 rest)) as H.
    rewrite length_skipn in H.
    assert (256 ^ Z.of_nat (List.length rest - 32) <= 256 ^ Z.of_nat 32)
      by (apply Z.pow_le_mono_r; lia).
    change (256 ^ Z.of_nat 32) with (2 ^ 256) in *. lia.
Qed.

(** X10. The two builders agree on the hash: a key that [toWebAuthnKey]
    obtained from a ceremony and a key that [toWebAuthnKeyDetails] built for
    the same credential id carry the same [authenticatorIdHash], whatever the
    public key text and the worlds they ran in. *)
Theorem builders_agree_on_hash w p k w' pubKey id k' :
  ToWebAuthnKey.webAuthnKey p = None ->
  outcome w (toWebAuthnKey p) = Ok k ->
  outcome w' (toWebAuthnKeyDetails pubKey id) = Ok k' ->
  credId k = id ->
  credId k' = id /\ authenticatorIdHash k' = authenticatorIdHash k.
Proof.
  intros Hp Hk Hk' Hid.
  destruct (toWebAuthnKey_success w p k Hp Hk) as (c & _ & Hc).
  destruct (keyOfCeremony_hash c k Hc) as (idBytes & Hb & Hh).
  rewrite Hid in Hb. unfold outcome, toWebAuthnKeyDetails in Hk'.
  rewrite Hb in Hk'. cbn [lift bind Monad_Prog bindP] in Hk'.
  rewrite keccak256_of_bytes in Hk'. cbn [lift bindP] in Hk'.
  destruct (importKey (bufferFromBase64 pubKey)); [|discriminate Hk'].
  cbn [lift bindP] in Hk'.
  destruct (exportKey _) as [raw|]; [|discriminate Hk'].
  cbn [lift bindP consoleLog run] in Hk'.
  destruct (bigIntOfHexLiteral (hexOfBytes (firstn 32 (skipn 1 raw))));
    [|discriminate Hk'].
  cbn [lift bindP run] in Hk'.
  destruct (bigIntOfHexLiteral (hexOfBytes (skipn 33 raw)));
    [|discriminate Hk'].
  cbn in Hk'. injection Hk' as <-. cbn. split; [reflexivity|now rewrite Hh].
Qed.

End Details.

Lemma details_of_raw_key_witness :
  fst (run (Double.world JNull 1)
         (KeyDetails.toWebAuthnKeyDetails (ext := Double.externals)
            (crypto := Double.crypto) Double.rawKeyText "AQID") [])
  = Ok {| ToWebAuthnKey.pubX := 1;
          ToWebAuthnKey.pubY := 2;
          ToWebAuthnKey.credId := "AQID";
          ToWebAuthnKey.authenticatorIdHash :=
            bytesToHex (Double.fold32 [x01; x02; x03]) |}.
Proof.
  pose proof (details_of_raw_key (ext := Double.externals)
                (crypto := Double.crypto) Double.rawKeyText "AQID"
                [x01; x02; x03] (x04 :: Abi.word 1 ++ Abi.word 2)%list
                x04 (Abi.word 1 ++ Abi.word 2)%list (Double.world JNull 1) []
                eq_refl eq_refl eq_refl) as H.
  cbv zeta in H. destruct H as (Hrun & _).
  - vm_compute. lia.
  - rewrite Hrun. reflexivity.
Defined.

Lemma builders_agree_on_hash_witness :
  exists k k',
    outcome (Double.world Double.verifiedAnswer 1)
      (ToWebAuthnKey.toWebAuthnKey (ext := Double.externals)
         (Double.params ToWebAuthnKey.ModeLogin)) = Ok k /\
    outcome (Double.world JNull 1)
      (KeyDetails.toWebAuthnKeyDetails (ext := Double.externals)
         (crypto := Double.crypto) Double.rawKeyText "AQID") = Ok k' /\
    ToWebAuthnKey.authenticatorIdHash k' = ToWebAuthnKey.authenticatorIdHash k.
Proof.
  do 2 eexists. split; [reflexivity|]. split; [reflexivity|].
  exact (proj2 (builders_agree_on_hash (ext := Double.externals)
                  (crypto := Double.crypto)
                  (Double.world Double.verifiedAnswer 1)
                  (Double.params ToWebAuthnKey.ModeLogin) _
                  (Double.world JNull 1) Double.rawKeyText "AQID" _
                  eq_refl eq_refl eq_refl eq_refl)).
Defined.

(** ** Signing *)

Lemma sextets_bad (c : ascii) (cs : list ascii) :
  In c cs -> Base64.sextet c = None -> Base64.sextets cs = None.
Proof.
  intros Hin Hc. induction cs as [|d cs IH]; [contradiction|].
  cbn [Base64.sextets]. destruct Hin as [->|Hin].
  - now rewrite Hc.
  - rewrite (IH Hin). now destruct (Base64.sextet d).
Qed.

Lemma strip_padding_keeps (c : ascii) (l : list ascii) :
  In c l -> c <> "="%char -> In c (Base64.strip_padding_rev l).
Proof.
  intros Hin Hc. unfold Base64.strip_padding_rev.
  destruct l as [|a l]; [contradiction|].
  destruct (Ascii.eqb_spec a "="%char) as [->|Ha].
  - destruct Hin as [E|Hin]; [congruence|].
    destruct l as [|b l]; [contradiction|].
    destruct (Ascii.eqb_spec b "="%char) as [->|Hb].
    + destruct Hin as [E|Hin]; [congruence|exact Hin].
    + cbn. destruct b as [[] [] [] [] [] [] [] []]; try exact Hin; congruence.
  - destruct a as [[] [] [] [] [] [] [] []]; try exact Hin; congruence.
Qed.

(** One character outside the alphabet, other than white space and [=],
    makes the whole text undecodable. *)
Lemma forgiving_decode_bad (c : ascii) (s : string) :
  In c (list_ascii_of_string s) ->
  Base64.sextet c = None ->
  Base64.is_ascii_whitespace c = false ->
  c <> "="%char ->
  Base64.forgiving_decode s = None.
Proof.
  intros Hin Hs Hw Hc. unfold Base64.forgiving_decode.
  set (cs := filter _ _).
  assert (Hcs : In c cs).
  { apply filter_In. split; [exact Hin|now rewrite Hw]. }
  assert (Hcs' : In c (rev (Base64.strip_padding_rev (rev cs)))).
  { apply in_rev. rewrite rev_involutive.
    apply strip_padding_keeps; [now apply in_rev in Hcs|exact Hc]. }
  destruct (Nat.modulo (List.length cs) 4 =? 0)%nat.
  - destruct (_ =? 1)%nat; [reflexivity|].
    now rewrite (sextets_bad c _ Hcs' Hs).
  - destruct (_ =? 1)%nat; [reflexivity|].
    now rewrite (sextets_bad c _ Hcs Hs).
Qed.

Lemma atob_url_safe (s : string) :
  In "-"%char (list_ascii_of_string s) \/ In "_"%char (list_ascii_of_string s) ->
  atob s = Err InvalidCharacterError.
Proof.
  intros [H|H]; unfold atob;
    rewrite (forgiving_decode_bad _ _ H); try reflexivity; discriminate.
Qed.

Lemma length_pad_right (bs : list byte) :
  List.length (Abi.pad_right bs) = padded (List.length bs).
Proof. unfold Abi.pad_right, padded. now rewrite length_app, repeat_length. Qed.

Lemma length_encode_dynamic_bytes (bs : list byte) :
  List.length (Abi.encode_dynamic_bytes bs) = (32 + padded (List.length bs))%nat.
Proof.
  unfold Abi.encode_dynamic_bytes. now rewrite length_app, length_word, length_pad_right.
Qed.

Lemma padded_multiple (n : nat) : Nat.modulo (padded n) 32 = 0%nat.
Proof.
  unfold padded.
  pose proof (Nat.mod_upper_bound n 32 ltac:(lia)) as Hn.
  pose proof (Nat.div_mod_eq n 32) as Hd.
  destruct (Nat.eq_dec (n mod 32) 0) as [E|E].
  - rewrite E. cbn. rewrite Nat.add_0_r. exact E.
  - rewrite (Nat.mod_small (32 - n mod 32) 32) by lia.
    replace (n + (32 - n mod 32))%nat with ((n / 32 + 1) * 32)%nat by lia.
    apply Nat.Div0.mod_mul.
Qed.

Lemma padded_in_block (n k : nat) :
  (32 * k < n <= 32 * (k + 1))%nat -> padded n = (32 * (k + 1))%nat.
Proof.
  intro H. unfold padded.
  destruct (Nat.eq_dec n (32 * (k + 1))) as [->|Hn].
  - replace (32 * (k + 1))%nat with ((k + 1) * 32)%nat by lia.
    rewrite Nat.Div0.mod_mul. cbn. lia.
  - assert (Hm : (n mod 32 = n - 32 * k)%nat).
    { replace n with ((n - 32 * k) + k * 32)%nat at 1 by lia.
      rewrite Nat.Div0.mod_add. apply Nat.mod_small. lia. }
    rewrite Hm. rewrite Nat.mod_small by lia. lia.
Qed.

Section SigningMore.
Context {ext : Externals}.
Import Utils ToWebAuthnKey ToPasskeyValidator.

(** Signing makes at most one call, a request to the authenticator with
    the given credential list. *)
Lemma signing_scoped w message url chainId id f :
  only_scoped_requests id f
    (calls w (signMessageUsingWebAuthn message url chainId
                (Some [{| descriptor_id := id; descriptor_type := "public-key" |}])
                f)).
Proof.
  set (allow := Some [{| descriptor_id := id; descriptor_type := "public-key" |}]).
  unfold only_scoped_requests, scoped_request.
  destruct (messageContent message) as [content|e] eqn:Hc;
    [|unfold calls, signMessageUsingWebAuthn; rewrite Hc; cbn;
      split; [lia|contradiction]].
  destruct (hexStringToUint8Array (formatMessage content)) as [bytes|e] eqn:Hb;
    [|unfold calls, signMessageUsingWebAuthn; rewrite Hc; cbn; rewrite Hb; cbn;
      split; [lia|contradiction]].
  destruct (base64FromArrayBuffer bytes true) as [challenge|e] eqn:Hch;
    [|unfold calls, signMessageUsingWebAuthn; rewrite Hc; cbn; rewrite Hb; cbn;
      rewrite Hch; cbn; split; [lia|contradiction]].
  rewrite (signing_request w _ url chainId allow f _ _ _ Hc Hb Hch).
  split; [cbn; lia|]. intros ev [<-|[]]. eauto.
Qed.

(** X11. Whatever the message and the answers of the world,
    [signMessageUsingWebAuthn] makes at most one call, and that call is to
    the authenticator (the given one, or the browser's when none is given),
    with the caller's [allowCredentials] and user verification required; it
    never contacts the passkey server, and its deprecated [passkeyServerUrl]
    argument changes nothing.  A message that is neither a string nor an
    object with a raw string or byte array is refused before any call. *)
Theorem signing_calls w message url chainId allowCredentials f :
  (List.length (calls w (signMessageUsingWebAuthn message url chainId allowCredentials f))
   <= 1)%nat /\
  (forall ev,
     In ev (calls w (signMessageUsingWebAuthn message url chainId allowCredentials f)) ->
     exists challenge answer,
       ev = EvAuthenticate (authenticatorOf f)
              (JObj [("challenge", JStr challenge);
                     ("allowCredentials",
                      match allowCredentials with
                      | Some l => JArr (map descriptorToJs l)
                      | None => JUndefined
                      end);
                     ("userVerification", JStr "required")]) answer) /\
  (forall url',
     run w (signMessageUsingWebAuthn message url' chainId allowCredentials f) []
     = run w (signMessageUsingWebAuthn message url chainId allowCredentials f) []) /\
  (accepted message = false ->
   run w (signMessageUsingWebAuthn message url chainId allowCredentials f) []
   = (Err TypeMismatch, [])).
Proof.
  split; [|split; [|split]].
  - destruct (messageContent message) as [content|e] eqn:Hc;
      [|unfold calls, signMessageUsingWebAuthn; rewrite Hc; cbn; lia].
    destruct (hexStringToUint8Array (formatMessage content)) as [bytes|e] eqn:Hb;
      [|unfold calls, signMessageUsingWebAuthn; rewrite Hc; cbn; rewrite Hb; cbn; lia].
    destruct (base64FromArrayBuffer bytes true) as [challenge|e] eqn:Hch;
      [|unfold calls, signMessageUsingWebAuthn; rewrite Hc; cbn; rewrite Hb; cbn;
        rewrite Hch; cbn; lia].
    rewrite (signing_request w _ url chainId allowCredentials f _ _ _ Hc Hb Hch).
    cbn. lia.
  - intros ev.
    destruct (messageContent message) as [content|e] eqn:Hc;
      [|unfold calls, signMessageUsingWebAuthn; rewrite Hc; cbn; contradiction].
    destruct (hexStringToUint8Array (formatMessage content)) as [bytes|e] eqn:Hb;
      [|unfold calls, signMessageUsingWebAuthn; rewrite Hc; cbn; rewrite Hb; cbn;
        contradiction].
    destruct (base64FromArrayBuffer bytes true) as [challenge|e] eqn:Hch;
      [|unfold calls, signMessageUsingWebAuthn; rewrite Hc; cbn; rewrite Hb; cbn;
        rewrite Hch; cbn; contradiction].
    rewrite (signing_request w _ url chainId allowCredentials f _ _ _ Hc Hb Hch).
    intros [<-|[]]. exists challenge. eexists. reflexivity.
  - reflexivity.
  - intro Ha. apply unsupported_message_refused.
    pose proof (messageContent_shapes message) as H.
    destruct message as [s|[[[]|bs]|]]; try discriminate Ha; exact H.
Qed.

(** X12. An assertion whose [clientDataJSON] holds one of the two
    characters that set URL-safe base64 apart, [-] or [_], cannot be encoded:
    [atob] refuses the text and signing fails with an InvalidCharacterError,
    after the authenticator has answered. *)
Theorem url_safe_client_data_refused
  w message url chainId allowCredentials f cred ad :
  asserts w message allowCredentials f cred ->
  b64ToBytes (authenticatorData (auth_response cred)) = Ok ad ->
  In "-"%char (list_ascii_of_string (clientDataJSON (auth_response cred))) \/
  In "_"%char (list_ascii_of_string (clientDataJSON (auth_response cred))) ->
  outcome w (signMessageUsingWebAuthn message url chainId allowCredentials f)
  = Err InvalidCharacterError /\
  exists options,
    calls w (signMessageUsingWebAuthn message url chainId allowCredentials f)
    = [EvAuthenticate (authenticatorOf f) options (Ok cred)].
Proof.
  intros Ha Had Hin. split.
  - rewrite (signMessage_run _ _ _ _ _ _ _ Ha).
    unfold encodeAssertion. rewrite Had. cbn [bindR].
    now rewrite (atob_url_safe _ Hin).
  - destruct Ha as (content & bytes & challenge & Hc & Hb & Hch & Hauth).
    rewrite (signing_request w _ url chainId allowCredentials f _ _ _ Hc Hb Hch).
    rewrite Hauth. eauto.
Qed.

Lemma length_signatureBytes ad cdj loc r s b :
  List.length (signatureBytes ad cdj loc r s b)
  = (256 + padded (List.length ad) + padded (List.length (utf8 cdj)))%nat.
Proof.
  unfold signatureBytes.
  rewrite !length_app, !length_word, !length_encode_dynamic_bytes. lia.
Qed.

(** An encoding of the signature tuple exists only when the three integers
    fit a uint256. *)
Lemma encode_signature_inv ad cdj loc r s b sig :
  Abi.encodeAbiParameters (signatureTuple (bytesToHex ad) cdj loc r s b) = Ok sig ->
  in_uint256 loc /\ in_uint256 r /\ in_uint256 s.
Proof.
  unfold Abi.encodeAbiParameters, signatureTuple, in_uint256.
  cbn [map Abi.sequence Abi.prepare]. rewrite hexToBytes_bytesToHex. cbn [bindR].
  destruct ((0 <=? loc) && (loc <? 2 ^ 256)) eqn:El; [|discriminate].
  cbn [bindR].
  destruct ((0 <=? r) && (r <? 2 ^ 256)) eqn:Er; [|discriminate].
  cbn [bindR].
  destruct ((0 <=? s) && (s <? 2 ^ 256)) eqn:Es; [|discriminate].
  intros _.
  apply andb_prop in El, Er, Es. lia.
Qed.

(** X13. A signature that [signMessageUsingWebAuthn] returns reads back:
    it is the hex text of 256 bytes of head and length words plus the
    authenticator data and the client data, each padded to a multiple of 32
    bytes, so its length is a multiple of 32; word 0 is the offset 192 of the
    authenticator data, words 2 to 5 are the response type location, [r], the
    normalised [s] and the precompile flag of the chain. *)
Theorem signature_shape
  w message url chainId allowCredentials f cred ad cdj loc r s sig :
  asserts w message allowCredentials f cred ->
  decodes cred ad cdj loc r s ->
  outcome w (signMessageUsingWebAuthn message url chainId allowCredentials f)
  = Ok sig ->
  exists bs,
    hexToBytes sig = Ok bs /\
    List.length bs
    = (256 + padded (List.length ad) + padded (List.length (utf8 cdj)))%nat /\
    Nat.modulo (List.length bs) 32 = 0%nat /\
    word_at 0 sig = Ok 192 /\
    word_at 2 sig = Ok loc /\
    word_at 3 sig = Ok r /\
    word_at 4 sig = Ok (normalizeS s) /\
    word_at 5 sig = Ok (if existsb (Z.eqb chainId) rip7212Networks then 1 else 0).
Proof.
  intros Ha Hd Hsig.
  rewrite (signMessage_run _ _ _ _ _ _ _ Ha),
    (encodeAssertion_steps _ _ _ _ _ _ _ Hd) in Hsig.
  unfold uint8ArrayToHexString in Hsig.
  destruct (encode_signature_inv _ _ _ _ _ _ _ Hsig) as (Hl & Hr & Hs).
  rewrite signature_layout in Hsig by assumption.
  apply Ok_inj in Hsig. subst sig.
  eexists. split; [apply hexToBytes_bytesToHex|].
  split; [apply length_signatureBytes|].
  split.
  { rewrite length_signatureBytes.
    replace (256 + padded (List.length ad) + padded (List.length (utf8 cdj)))%nat
      with (padded (List.length ad) + (padded (List.length (utf8 cdj)) + 8 * 32))%nat
      by lia.
    rewrite Nat.Div0.add_mod, (Nat.Div0.add_mod (padded _) (8 * 32)), !padded_multiple.
    reflexivity. }
  destruct (signatureBytes_words ad cdj loc r (normalizeS s)
              (isRIP7212SupportedNetwork chainId) Hl Hr Hs) as (W2 & W3 & W4 & W5).
  split.
  { unfold signatureBytes. rewrite word_at_0 by apply length_word.
    rewrite be_value_word; [reflexivity|unfold in_uint256; lia]. }
  split; [exact W2|]. split; [exact W3|]. split; [exact W4|exact W5].
Qed.

(** X14. The dummy signature has the size of a real one: when the
    authenticator data take 33 to 64 bytes and the client data 129 to 160,
    the signature [signMessageUsingWebAuthn] returns has 480 bytes, and so
    has the dummy signature, whichever response type location it encodes. *)
Theorem dummy_signature_length
  w message url chainId allowCredentials f cred ad cdj loc r s sig bs loc0 :
  asserts w message allowCredentials f cred ->
  decodes cred ad cdj loc r s ->
  outcome w (signMessageUsingWebAuthn message url chainId allowCredentials f)
  = Ok sig ->
  hexToBytes sig = Ok bs ->
  (32 < List.length ad <= 64)%nat ->
  (128 < List.length (utf8 cdj) <= 160)%nat ->
  in_uint256 loc0 ->
  List.length bs = 480%nat /\
  exists dummy dummyBytes,
    dummySignature loc0 = Ok dummy /\ hexToBytes dummy = Ok dummyBytes /\
    List.length dummyBytes = List.length bs.
Proof.
  intros Ha Hd Hsig Hbs Hlad Hlcdj Hloc.
  assert (Hlen : List.length bs = 480%nat).
  { rewrite (signMessage_run _ _ _ _ _ _ _ Ha),
      (encodeAssertion_steps _ _ _ _ _ _ _ Hd) in Hsig.
    unfold uint8ArrayToHexString in Hsig.
    destruct (encode_signature_inv _ _ _ _ _ _ _ Hsig) as (Hl & Hr & Hs).
    rewrite signature_layout in Hsig by assumption.
    apply Ok_inj in Hsig. subst sig.
    rewrite hexToBytes_bytesToHex in Hbs. apply Ok_inj in Hbs. subst bs.
    rewrite length_signatureBytes.
    rewrite (padded_in_block (List.length ad) 1) by lia.
    rewrite (padded_in_block (List.length (utf8 cdj)) 4) by lia.
    reflexivity. }
  split; [exact Hlen|]. rewrite Hlen.
  assert (Had : exists ad, dummyAuthenticatorData = bytesToHex ad
                           /\ List.length ad = 37%nat).
  { exists (match hexToBytes dummyAuthenticatorData with
            | Ok b => b | Err _ => [] end).
    split; vm_compute; reflexivity. }
  destruct Had as (ad0 & Had & Hlen0).
  assert (Hr : in_uint256 dummyR) by (unfold in_uint256, dummyR; lia).
  assert (Hs : in_uint256 dummyS) by (unfold in_uint256, dummyS; lia).
  unfold dummySignature. rewrite Had, signature_layout by assumption.
  do 2 eexists. split; [reflexivity|]. split; [apply hexToBytes_bytesToHex|].
  rewrite length_signatureBytes, Hlen0.
  replace (List.length (utf8 dummyClientDataJSON)) with 134%nat
    by (vm_compute; reflexivity).
  reflexivity.
Qed.

End SigningMore.

Lemma signing_calls_witness :
  run (Double.world Double.verifiedAnswer 1)
    (ToPasskeyValidator.signMessageUsingWebAuthn (ext := Double.externals)
       (ToPasskeyValidator.MsgObject None) Double.serverUrl 1 None None) []
  = (Err TypeMismatch, []).
Proof.
  exact (proj2 (proj2 (proj2
           (signing_calls (ext := Double.externals)
              (Double.world Double.verifiedAnswer 1)
              (ToPasskeyValidator.MsgObject None) Double.serverUrl 1 None None)))
           eq_refl).
Defined.

Lemma url_safe_client_data_refused_witness :
  outcome
    (Double.answering
       {| auth_id := "AQID";
          auth_response := {| clientDataJSON := "e-J_";
                              authenticatorData := "AQID";
                              signature := "AQID" |} |} 1)
    (ToPasskeyValidator.signMessageUsingWebAuthn (ext := Double.externals)
       (ToPasskeyValidator.MsgString "0x0102") Double.serverUrl 1 None None)
  = Err InvalidCharacterError.
Proof.
  refine (proj1 (url_safe_client_data_refused (ext := Double.externals)
                   _ (ToPasskeyValidator.MsgString "0x0102") Double.serverUrl 1
                   None None
                   {| auth_id := "AQID";
                      auth_response := {| clientDataJSON := "e-J_";
                                          authenticatorData := "AQID";
                                          signature := "AQID" |} |}
                   [x01; x02; x03] _ _ _)).
  - exists "0x0102", [x01; x02], "AQI". repeat split; reflexivity.
  - reflexivity.
  - left. cbn. right. left. reflexivity.
Defined.

Lemma signature_shape_witness :
  exists sig,
    outcome (Double.world Double.verifiedAnswer 7560)
      (ToPasskeyValidator.signMessageUsingWebAuthn (ext := Double.externals)
         (ToPasskeyValidator.MsgString "0x0102") Double.serverUrl 7560
         None (Some (Injected "startAuthentication"))) = Ok sig /\
    word_at 2 sig = Ok 1 /\ word_at 4 sig = Ok 1 /\ word_at 5 sig = Ok 1.
Proof.
  eexists. split; [vm_compute; reflexivity|].
  edestruct (signature_shape (ext := Double.externals)
              (Double.world Double.verifiedAnswer 7560)
              (ToPasskeyValidator.MsgString "0x0102") Double.serverUrl 7560
              None (Some (Injected "startAuthentication"))
              Double.loginCredential
              (match hexToBytes ToPasskeyValidator.dummyAuthenticatorData with
               | Ok b => b | Err _ => [] end)
              ToPasskeyValidator.dummyClientDataJSON 1 1 (Utils.curveOrder - 1))
    as (bs & _ & _ & _ & _ & W2 & _ & W4 & W5).
  - exists "0x0102", [x01; x02], "AQI". repeat split; reflexivity.
  - repeat split; try reflexivity.
    eexists. split; vm_compute; reflexivity.
  - vm_compute. reflexivity.
  - split; [exact W2|]. split; [exact W4|exact W5].
Defined.

Lemma dummy_signature_length_witness :
  exists sig bs,
    outcome (Double.world Double.verifiedAnswer 7560)
      (ToPasskeyValidator.signMessageUsingWebAuthn (ext := Double.externals)
         (ToPasskeyValidator.MsgString "0x0102") Double.serverUrl 7560
         None (Some (Injected "startAuthentication"))) = Ok sig /\
    hexToBytes sig = Ok bs /\ List.length bs = 480%nat.
Proof.
  do 2 eexists. split; [vm_compute; reflexivity|]. split; [vm_compute; reflexivity|].
  refine (proj1 (dummy_signature_length (ext := Double.externals)
              (Double.world Double.verifiedAnswer 7560)
              (ToPasskeyValidator.MsgString "0x0102") Double.serverUrl 7560
              None (Some (Injected "startAuthentication"))
              Double.loginCredential
              (match hexToBytes ToPasskeyValidator.dummyAuthenticatorData with
               | Ok b => b | Err _ => [] end)
              ToPasskeyValidator.dummyClientDataJSON 1 1 (Utils.curveOrder - 1)
              _ _ 0 _ _ _ _ _ _ _)).
  - exists "0x0102", [x01; x02], "AQI". repeat split; reflexivity.
  - repeat split; try reflexivity.
    eexists. split; vm_compute; reflexivity.
  - vm_compute. reflexivity.
  - vm_compute. reflexivity.
  - vm_compute. lia.
  - vm_compute. lia.
  - vm_compute. split; congruence.
Defined.

(** ** Object spread *)

Lemma same_but_refl k l : same_but k l l.
Proof.
  induction l as [|[k2 v2] l IH]; [constructor|].
  destruct (String.eqb_spec k2 k) as [->|Hk]; now constructor.
Qed.

Lemma set_field_same_but k v l l' :
  same_but k l l' ->
  ToPasskeyValidator.set_field k v l = ToPasskeyValidator.set_field k v l'.
Proof.
  induction 1 as [|v1 v1' l|k2 v2 l l' Hk _ IH]; cbn [ToPasskeyValidator.set_field].
  - reflexivity.
  - now rewrite String.eqb_refl.
  - destruct (String.eqb_spec k k2) as [E|_]; [congruence|]. now rewrite IH.
Qed.

Lemma same_but_set_other k k2 v2 l l' :
  same_but k l l' ->
  same_but k (ToPasskeyValidator.set_field k2 v2 l)
    (ToPasskeyValidator.set_field k2 v2 l').
Proof.
  destruct (String.eqb_spec k2 k) as [->|Hk].
  - intro H. rewrite (set_field_same_but _ _ _ _ H). apply same_but_refl.
  - induction 1 as [|v1 v1' l|k3 v3 l l' Hk3 Hs IH];
      cbn [ToPasskeyValidator.set_field].
    + apply same_but_refl.
    + destruct (String.eqb_spec k2 k) as [E|_]; [congruence|].
      constructor.
    + destruct (String.eqb_spec k2 k3) as [->|_]; constructor; assumption.
Qed.

Lemma same_but_set_here k s s' l l' :
  same_but k l l' ->
  same_but k (ToPasskeyValidator.set_field k s l)
    (ToPasskeyValidator.set_field k s' l').
Proof.
  induction 1 as [|v1 v1' l|k3 v3 l l' Hk3 _ IH];
    cbn [ToPasskeyValidator.set_field].
  - constructor.
  - rewrite String.eqb_refl. constructor.
  - destruct (String.eqb_spec k k3) as [E|_]; [congruence|].
    constructor; assumption.
Qed.

Lemma same_but_fold k fs acc acc' :
  same_but k acc acc' ->
  same_but k
    (fold_left (fun a kv => ToPasskeyValidator.set_field (fst kv) (snd kv) a) fs acc)
    (fold_left (fun a kv => ToPasskeyValidator.set_field (fst kv) (snd kv) a) fs acc').
Proof.
  revert acc acc'. induction fs as [|[k2 v2] fs IH]; intros acc acc' H;
    [exact H|].
  cbn [fold_left fst snd]. apply IH. now apply same_but_set_other.
Qed.

(** A field that the second spread overrides does not show in the
    result. *)
Lemma spread_override_ignores k v fs1 fs2 s s' :
  ToPasskeyValidator.spread
    (ToPasskeyValidator.spread [] (JObj (fs1 ++ (k, s) :: fs2))) (JObj [(k, v)])
  = ToPasskeyValidator.spread
      (ToPasskeyValidator.spread [] (JObj (fs1 ++ (k, s') :: fs2))) (JObj [(k, v)]).
Proof.
  unfold ToPasskeyValidator.spread. cbn [fold_left fst snd].
  apply set_field_same_but.
  rewrite !fold_left_app. cbn [fold_left fst snd].
  apply same_but_fold, same_but_set_here, same_but_refl.
Qed.

(** ** The validators *)

Section ValidatorsMore.
Context {ext : Externals}.
Import Utils ToWebAuthnKey ToPasskeyValidator.

Ltac run_step H :=
  cbn [bind ret Monad_Prog bindP getChainId run lift fst snd] in H.

Ltac invert_built H :=
  unfold built, restored, outcome, toPasskeyValidator,
    deserializePasskeyValidator in H;
  run_step H;
  repeat match type of H with
         | context [deserializePasskeyValidatorData ?s] =>
             destruct (deserializePasskeyValidatorData s) eqn:?; run_step H
         | context [on_getChainId ?w ?p ?c] =>
             destruct (on_getChainId w p c) eqn:?; run_step H
         end;
  try discriminate H; injection H as <-.

(** X15. [toPasskeyValidator] makes exactly one call, the fetch of the
    chain id: it fails with the error of that call and returns a validator
    whenever the call answers.  [deserializePasskeyValidator] reads the
    serialized data first: when they cannot be read it fails with that error
    and the chain is not asked; when they can, the one call is the fetch of
    the chain id and a validator is returned whenever it answers. *)
Theorem construction_calls w client p serializedData entryPoint f :
  calls w (toPasskeyValidator client p)
  = [EvGetChainId client (on_getChainId w [] client)] /\
  (forall e, on_getChainId w [] client = Err e ->
             outcome w (toPasskeyValidator client p) = Err e) /\
  (forall n, on_getChainId w [] client = Ok n ->
             exists v, built w client p v) /\
  (forall e, deserializePasskeyValidatorData serializedData = Err e ->
             run w (deserializePasskeyValidator client serializedData entryPoint f) []
             = (Err e, [])) /\
  (forall data, deserializePasskeyValidatorData serializedData = Ok data ->
     calls w (deserializePasskeyValidator client serializedData entryPoint f)
     = [EvGetChainId client (on_getChainId w [] client)] /\
     (forall e, on_getChainId w [] client = Err e ->
        outcome w (deserializePasskeyValidator client serializedData entryPoint f)
        = Err e) /\
     (forall n, on_getChainId w [] client = Ok n ->
        exists v, restored w client serializedData entryPoint f v)).
Proof.
  split; [|split; [|split; [|split]]].
  - unfold calls, toPasskeyValidator.
    cbn [bind ret Monad_Prog bindP getChainId run lift fst snd].
    destruct (on_getChainId w [] client); reflexivity.
  - intros e He. unfold outcome, toPasskeyValidator.
    cbn [bind ret Monad_Prog bindP getChainId run lift fst snd].
    rewrite He. reflexivity.
  - intros n Hn. unfold built, outcome, toPasskeyValidator.
    cbn [bind ret Monad_Prog bindP getChainId run lift fst snd].
    rewrite Hn. eexists. reflexivity.
  - intros e He. unfold deserializePasskeyValidator. rewrite He. reflexivity.
  - intros data Hd. split; [|split].
    + unfold calls, deserializePasskeyValidator. rewrite Hd.
      cbn [bind ret Monad_Prog bindP getChainId run lift fst snd].
      destruct (on_getChainId w [] client); reflexivity.
    + intros e He. unfold outcome, deserializePasskeyValidator. rewrite Hd.
      cbn [bind ret Monad_Prog bindP getChainId run lift fst snd].
      rewrite He. reflexivity.
    + intros n Hn. exact (restore_succeeds w client _ entryPoint f data n Hd Hn).
Qed.

(** X16. The two constructors differ on [getNonceKey]: a validator made by
    [toPasskeyValidator] returns the custom nonce key it is given, and 0 when
    there is none; a restored validator returns 0 whatever key it is given.
    Neither makes a call. *)
Theorem nonce_key w client p v w' client' sd ep f v' :
  built w client p v ->
  restored w' client' sd ep f v' ->
  forall account key w0 past,
    run w0 (getNonceKey v account key) past
    = (Ok (match key with Some n => n | None => 0 end), past) /\
    run w0 (getNonceKey v' account key) past = (Ok 0, past).
Proof.
  intros Hb Hr. invert_built Hb. invert_built Hr.
  intros account key w0 past. cbn [getNonceKey]. split; [|reflexivity].
  destruct key as [n|]; [|reflexivity].
  destruct (Z.eqb_spec n 0) as [->|_]; reflexivity.
Qed.

(** X17. A validator restored from the serialized data of a validator
    made by [toPasskeyValidator], when those data read back, has the same
    address, identifier, type, source and serialized data.  Restored on the
    same chain with the same authenticator it signs messages and typed data
    by the same program, and user operations too when it is given the same
    entry point. *)
Theorem restored_equivalence w client p v w' client' ep f' v' :
  built w client p v ->
  round_trips (serializedDataOf p) ->
  restored w' client' (getSerializedData v tt) ep f' v' ->
  address v' = address v /\
  getIdentifier v' tt = getIdentifier v tt /\
  validatorType v' = validatorType v /\ source v' = source v /\
  getSerializedData v' tt = getSerializedData v tt /\
  (on_getChainId w' [] client' = on_getChainId w [] client ->
   f' = ToPasskeyValidator.signWithAuthenticator p ->
   (forall message, signMessage v' message = signMessage v message) /\
   (forall typedData, signTypedData v' typedData = signTypedData v typedData) /\
   (ep = entryPoint p ->
    forall userOperation,
      signUserOperation v' userOperation = signUserOperation v userOperation)).
Proof.
  intros Hb Hround Hr.
  invert_built Hb. cbn [getSerializedData] in Hr.
  unfold restored, outcome, deserializePasskeyValidator in Hr.
  rewrite Hround in Hr. run_step Hr.
  destruct (on_getChainId w' [] client') as [n'|] eqn:Hn'; run_step Hr;
    [|discriminate Hr].
  injection Hr as <-.
  cbn [address getIdentifier validatorType source getSerializedData
       signMessage signTypedData signUserOperation].
  repeat (split; [reflexivity|]).
  intros Hchain Hf. injection Hchain as ->. subst f'.
  split; [reflexivity|]. split; [reflexivity|].
  intros ->. reflexivity.
Qed.

(** X18. The [signature] field of a user operation has no part in what is
    signed: two user operations that differ in that field only are signed by
    the same program. *)
Theorem user_operation_signature_ignored
  w client p sd ep f v fs1 fs2 s s' :
  built w client p v \/ restored w client sd ep f v ->
  signUserOperation v (JObj (fs1 ++ ("signature", s) :: fs2))
  = signUserOperation v (JObj (fs1 ++ ("signature", s') :: fs2)).
Proof.
  intros [H|H]; invert_built H; cbn [signUserOperation];
    unfold signUserOperationWith;
    now rewrite (spread_override_ignores "signature" (JStr "0x") fs1 fs2 s s').
Qed.

(** Typed data are signed in three steps: validation, hashing, and the
    signature of the hash as a string message. *)
Lemma typed_data_run (sm : SignableMessage -> Prog Hex) typedData w :
  (exists e, run w (signTypedDataWith sm typedData) [] = (Err e, [])) \/
  (exists domain message primaryType typedTypes h,
     get_prop typedData "domain" = Ok domain /\
     get_prop typedData "message" = Ok message /\
     get_prop typedData "primaryType" = Ok primaryType /\
     get_prop typedData "types" = Ok typedTypes /\
     validateTypedData
       (JObj [("domain", domain); ("message", message);
              ("primaryType", primaryType);
              ("types",
               JObj (spread [("EIP712Domain",
                              getTypesForEIP712Domain (JObj [("domain", domain)]))]
                       typedTypes))]) = Ok tt /\
     hashTypedData typedData = Ok h /\
     run w (signTypedDataWith sm typedData) [] = run w (sm (MsgString h)) []).
Proof.
  unfold signTypedDataWith. cbn [bind Monad_Prog].
  destruct (get_prop typedData "domain") as [domain|e];
    [|left; eexists; reflexivity].
  destruct (get_prop typedData "message") as [message|e];
    [|left; eexists; reflexivity].
  destruct (get_prop typedData "primaryType") as [primaryType|e];
    [|left; eexists; reflexivity].
  destruct (get_prop typedData "types") as [types|e];
    [|left; eexists; reflexivity].
  cbn [lift bindP].
  match goal with |- context [validateTypedData ?x] =>
    destruct (validateTypedData x) as [[]|e] eqn:Hv end;
    [|left; eexists; reflexivity].
  cbn [lift bindP].
  destruct (hashTypedData typedData) as [h|e] eqn:Hh;
    [|left; eexists; reflexivity].
  right. exists domain, message, primaryType, types, h.
  repeat (split; [reflexivity|]). split; [exact Hv|]. split; reflexivity.
Qed.

(** A user operation is signed in two steps: the hash of the operation
    with its signature blanked, and the signature of the hash as a raw
    message. *)
Lemma user_operation_run (sm : SignableMessage -> Prog Hex) ep chainId uo w :
  (exists e, run w (signUserOperationWith sm ep chainId uo) [] = (Err e, [])) \/
  (exists h,
     getUserOperationHash
       (JObj (spread (spread [] uo) (JObj [("signature", JStr "0x")]))) ep chainId
     = Ok h /\
     run w (signUserOperationWith sm ep chainId uo) []
     = run w (sm (MsgObject (Some (RawValue (JStr h))))) []).
Proof.
  unfold signUserOperationWith. cbn [bind Monad_Prog].
  destruct (getUserOperationHash _ ep chainId) as [h|e] eqn:Hh;
    [|left; eexists; reflexivity].
  right. eexists. split; reflexivity.
Qed.

Lemma only_scoped_nil id f : only_scoped_requests id f [].
Proof. split; [cbn; lia|intros ev []]. Qed.

Lemma operations_scoped w url chainId ep id f typedData uo message :
  let sm := fun m =>
    signMessageUsingWebAuthn m url chainId
      (Some [{| descriptor_id := id; descriptor_type := "public-key" |}]) f in
  only_scoped_requests id f (calls w (sm message)) /\
  only_scoped_requests id f (calls w (signTypedDataWith sm typedData)) /\
  only_scoped_requests id f (calls w (signUserOperationWith sm ep chainId uo)).
Proof.
  intro sm. split; [apply signing_scoped|]. split.
  - unfold calls.
    destruct (typed_data_run sm typedData w)
      as [[e ->]|(d & m & t & ts & h & _ & _ & _ & _ & _ & _ & ->)];
      [apply only_scoped_nil|apply signing_scoped].
  - unfold calls.
    destruct (user_operation_run sm ep chainId uo w) as [[e ->]|(h & _ & ->)];
      [apply only_scoped_nil|apply signing_scoped].
Qed.

(** X19. Each of the three signing operations of a validator makes at most
    one call, and that call is a request to the validator's authenticator
    that allows one credential only: the [credId] of the key the validator
    was made with, or the [credId] of the serialized data it was restored
    from.  No signing operation contacts the passkey server or the chain. *)
Theorem validator_requests_scoped
  w client p v w' client' sd ep f v' data w0 message typedData uo :
  built w client p v ->
  restored w' client' sd ep f v' ->
  deserializePasskeyValidatorData sd = Ok data ->
  (only_scoped_requests (credId (ToPasskeyValidator.webAuthnKey p))
     (ToPasskeyValidator.signWithAuthenticator p)
     (calls w0 (signMessage v message)) /\
   only_scoped_requests (credId (ToPasskeyValidator.webAuthnKey p))
     (ToPasskeyValidator.signWithAuthenticator p)
     (calls w0 (signTypedData v typedData)) /\
   only_scoped_requests (credId (ToPasskeyValidator.webAuthnKey p))
     (ToPasskeyValidator.signWithAuthenticator p)
     (calls w0 (signUserOperation v uo))) /\
  (only_scoped_requests (Serialized.credId data) f
     (calls w0 (signMessage v' message)) /\
   only_scoped_requests (Serialized.credId data) f
     (calls w0 (signTypedData v' typedData)) /\
   only_scoped_requests (Serialized.credId data) f
     (calls w0 (signUserOperation v' uo))).
Proof.
  intros Hb Hr Hd. invert_built Hb. invert_built Hr.
  match goal with E : Ok _ = Ok data |- _ => injection E as -> end.
  cbn [signMessage signTypedData signUserOperation].
  split; apply operations_scoped.
Qed.

(** X20. [signTypedData] of a validator either fails before any call, or
    has read the four fields of the typed data, validated them with the
    EIP712Domain types laid under the given types, hashed the typed data, and
    then runs as [signMessage] of the hash given as a string. *)
Theorem typed_data_signing w client p sd ep f v typedData w' :
  built w client p v \/ restored w client sd ep f v ->
  (exists e, run w' (signTypedData v typedData) [] = (Err e, [])) \/
  (exists domain message primaryType typedTypes h,
     get_prop typedData "domain" = Ok domain /\
     get_prop typedData "message" = Ok message /\
     get_prop typedData "primaryType" = Ok primaryType /\
     get_prop typedData "types" = Ok typedTypes /\
     validateTypedData
       (JObj [("domain", domain); ("message", message);
              ("primaryType", primaryType);
              ("types",
               JObj (spread [("EIP712Domain",
                              getTypesForEIP712Domain (JObj [("domain", domain)]))]
                       typedTypes))]) = Ok tt /\
     hashTypedData typedData = Ok h /\
     run w' (signTypedData v typedData) []
     = run w' (signMessage v (MsgString h)) []).
Proof.
  intros [H|H]; invert_built H; cbn [signMessage signTypedData];
    apply typed_data_run.
Qed.

(** X21. [signUserOperation] either fails before any call, or runs as
    [signMessage] of the raw hash of the operation with its signature
    replaced by [0x].  A validator made by [toPasskeyValidator] hashes with
    its entry point and the chain id fetched when it was made; a restored
    validator hashes with the chain id fetched when it was restored and the
    entry point given to [deserializePasskeyValidator], whatever entry point
    the serialized data hold. *)
Theorem user_operation_signing w client p v w' client' sd ep f v' uo w0 :
  built w client p v ->
  restored w' client' sd ep f v' ->
  exists n n',
    on_getChainId w [] client = Ok n /\
    on_getChainId w' [] client' = Ok n' /\
    ((exists e, run w0 (signUserOperation v uo) [] = (Err e, [])) \/
     (exists h,
        getUserOperationHash
          (JObj (spread (spread [] uo) (JObj [("signature", JStr "0x")])))
          (entryPoint p) n = Ok h /\
        run w0 (signUserOperation v uo) []
        = run w0 (signMessage v (MsgObject (Some (RawValue (JStr h))))) [])) /\
    ((exists e, run w0 (signUserOperation v' uo) [] = (Err e, [])) \/
     (exists h,
        getUserOperationHash
          (JObj (spread (spread [] uo) (JObj [("signature", JStr "0x")])))
          ep n' = Ok h /\
        run w0 (signUserOperation v' uo) []
        = run w0 (signMessage v' (MsgObject (Some (RawValue (JStr h))))) [])).
Proof.
  intros Hb Hr. invert_built Hb. invert_built Hr.
  do 2 eexists. split; [reflexivity|]. split; [reflexivity|].
  cbn [signMessage signUserOperation]. split; apply user_operation_run.
Qed.

(** The enable data are three words: the two coordinates and the hash. *)
Lemma enableData_layout x y h :
  in_uint256 x -> in_uint256 y -> List.length h = 32%nat ->
  enableData x y (bytesToHex h)
  = Ok (bytesToHex (Abi.word x ++ Abi.word y ++ h)).
Proof.
  intros Hx Hy Hh. unfold enableData, Abi.encodeAbiParameters.
  cbn [map Abi.sequence Abi.prepare].
  pose proof (prepare_uint256 x Hx) as Px. pose proof (prepare_uint256 y Hy) as Py.
  cbn [Abi.prepare] in Px, Py.
  destruct ((0 <=? x) && (x <? 2 ^ 256)); [|discriminate Px].
  destruct ((0 <=? y) && (y <? 2 ^ 256)); [|discriminate Py].
  cbn [bindR existsb fst orb].
  rewrite hexToBytes_bytesToHex. cbn [bindR]. rewrite Hh. cbn [Nat.eqb bindR].
  unfold Abi.layout. cbn [fold_left fst snd app].
  now rewrite !app_nil_r, <- app_assoc.
Qed.

(** Enable data exist only for coordinates that fit a uint256 and a hash
    of 32 bytes. *)
Lemma enableData_inv x y h e :
  enableData x y (bytesToHex h) = Ok e ->
  in_uint256 x /\ in_uint256 y /\ List.length h = 32%nat.
Proof.
  unfold enableData, Abi.encodeAbiParameters, in_uint256.
  cbn [map Abi.sequence Abi.prepare].
  destruct ((0 <=? x) && (x <? 2 ^ 256)) eqn:Ex; [|discriminate].
  destruct ((0 <=? y) && (y <? 2 ^ 256)) eqn:Ey; [|discriminate].
  cbn [bindR]. rewrite hexToBytes_bytesToHex. cbn [bindR].
  destruct (List.length h =? 32)%nat eqn:Eh; [|discriminate].
  intros _. apply andb_prop in Ex, Ey. apply Nat.eqb_eq in Eh. lia.
Qed.

Lemma enableData_words x y h e :
  enableData x y (bytesToHex h) = Ok e ->
  hexToBytes e = Ok (Abi.word x ++ Abi.word y ++ h)%list /\
  word_at 0 e = Ok x /\ word_at 1 e = Ok y.
Proof.
  intro He. destruct (enableData_inv _ _ _ _ He) as (Hx & Hy & Hh).
  rewrite enableData_layout in He by assumption. apply Ok_inj in He. subst e.
  split; [apply hexToBytes_bytesToHex|]. split.
  - rewrite word_at_0 by apply length_word. now rewrite be_value_word.
  - rewrite word_at_S, word_at_0 by apply length_word. now rewrite be_value_word.
Qed.

Lemma enableData_errors x y h :
  (~ in_uint256 x \/ ~ in_uint256 y ->
   forall hash,
     enableData x y hash = Err (ViemError "IntegerOutOfRangeError")) /\
  (in_uint256 x -> in_uint256 y -> List.length h <> 32%nat ->
   enableData x y (bytesToHex h)
   = Err (ViemError "AbiEncodingBytesSizeMismatchError")).
Proof.
  split.
  - intros Hout hash. unfold enableData, Abi.encodeAbiParameters.
    cbn [map Abi.sequence Abi.prepare].
    destruct ((0 <=? x) && (x <? 2 ^ 256)) eqn:Ex; [|reflexivity].
    destruct ((0 <=? y) && (y <? 2 ^ 256)) eqn:Ey; [|reflexivity].
    apply andb_prop in Ex, Ey. unfold in_uint256 in Hout. lia.
  - intros Hx Hy Hh. unfold enableData, Abi.encodeAbiParameters.
    cbn [map Abi.sequence Abi.prepare].
    pose proof (prepare_uint256 x Hx) as Px. pose proof (prepare_uint256 y Hy) as Py.
    cbn [Abi.prepare] in Px, Py.
    destruct ((0 <=? x) && (x <? 2 ^ 256)); [|discriminate Px].
    destruct ((0 <=? y) && (y <? 2 ^ 256)); [|discriminate Py].
    cbn [bindR]. rewrite hexToBytes_bytesToHex. cbn [bindR].
    apply Nat.eqb_neq in Hh. rewrite Hh. reflexivity.
Qed.

(** X22. The enable data read back: when the encoding of two coordinates
    and a hash exists, it is the hex text of 96 bytes, the two coordinates as
    32-byte words followed by the hash, which has 32 bytes; the first two
    words decode to the coordinates; and no other coordinates or hash have
    the same encoding. *)
Theorem enable_data_decodes x y h e :
  enableData x y (bytesToHex h) = Ok e ->
  hexToBytes e = Ok (Abi.word x ++ Abi.word y ++ h)%list /\
  List.length h = 32%nat /\
  word_at 0 e = Ok x /\ word_at 1 e = Ok y /\
  (forall x' y' h',
     enableData x' y' (bytesToHex h') = Ok e -> x' = x /\ y' = y /\ h' = h).
Proof.
  intro He.
  destruct (enableData_inv _ _ _ _ He) as (Hx & Hy & Hh).
  destruct (enableData_words _ _ _ _ He) as (Hb & W0 & W1).
  split; [exact Hb|]. split; [exact Hh|]. split; [exact W0|]. split; [exact W1|].
  intros x' y' h' He'.
  destruct (enableData_words _ _ _ _ He') as (Hb' & W0' & W1').
  rewrite W0 in W0'. rewrite W1 in W1'. injection W0' as <-. injection W1' as <-.
  rewrite Hb in Hb'. apply Ok_inj in Hb'.
  apply app_inv_head in Hb'. apply app_inv_head in Hb'.
  repeat split; congruence.
Qed.

(** X23. [getEnableData] of a validator made by [toPasskeyValidator] makes
    no call and depends on the key alone.  With coordinates that fit a
    uint256 and a hash of 32 bytes it returns the three words x, y, hash; a
    coordinate that is negative or too large makes it fail with viem's
    IntegerOutOfRangeError, and a hash of another size with
    AbiEncodingBytesSizeMismatchError. *)
Theorem built_enable_data w client p v h :
  built w client p v ->
  authenticatorIdHash (ToPasskeyValidator.webAuthnKey p) = bytesToHex h ->
  let x := pubX (ToPasskeyValidator.webAuthnKey p) in
  let y := pubY (ToPasskeyValidator.webAuthnKey p) in
  (in_uint256 x -> in_uint256 y -> List.length h = 32%nat ->
   forall w' past,
     run w' (getEnableData v tt) past
     = (Ok (bytesToHex (Abi.word x ++ Abi.word y ++ h)), past)) /\
  (~ in_uint256 x \/ ~ in_uint256 y ->
   forall w' past,
     run w' (getEnableData v tt) past
     = (Err (ViemError "IntegerOutOfRangeError"), past)) /\
  (in_uint256 x -> in_uint256 y -> List.length h <> 32%nat ->
   forall w' past,
     run w' (getEnableData v tt) past
     = (Err (ViemError "AbiEncodingBytesSizeMismatchError"), past)).
Proof.
  intros Hb Hh x y.
  destruct (built_getEnableData _ _ _ _ Hb) as [He _]. rewrite He, Hh.
  fold x y.
  split; [|split].
  - intros Hx Hy Hl w' past. now rewrite enableData_layout.
  - intros Hout w' past.
    now rewrite (proj1 (enableData_errors x y h) Hout).
  - intros Hx Hy Hl w' past.
    now rewrite (proj2 (enableData_errors x y h) Hx Hy Hl).
Qed.

(** X24. From the ceremony to the validator, as the page chains them: when
    [toWebAuthnKey] returns a key after a ceremony and [toPasskeyValidator]
    makes a validator with that key, the credential id the validator lets the
    authenticator use for signing is the id the authenticator returned during
    the ceremony, and the enable data are the two coordinates followed by the
    hash of the decoded credential id. *)
Theorem login_to_validator w p k tr w1 client vp v :
  ToWebAuthnKey.webAuthnKey p = None ->
  run w (toWebAuthnKey p) [] = (Ok k, tr) ->
  ToPasskeyValidator.webAuthnKey vp = k ->
  built w1 client vp v ->
  (exists ev, In ev tr /\ returned_id ev = Some (credId k)) /\
  (forall w2 message,
     only_scoped_requests (credId k) (ToPasskeyValidator.signWithAuthenticator vp)
       (calls w2 (signMessage v message))) /\
  (forall idBytes,
     b64ToBytes (credId k) = Ok idBytes ->
     List.length (keccak_256 idBytes) = 32%nat ->
     in_uint256 (pubX k) -> in_uint256 (pubY k) ->
     forall w2 past,
       run w2 (getEnableData v tt) past
       = (Ok (bytesToHex (Abi.word (pubX k) ++ Abi.word (pubY k)
                          ++ keccak_256 idBytes)), past)).
Proof.
  intros Hp Hrun Hvp Hb.
  pose proof (toWebAuthnKey_run w p Hp) as Hrun'. rewrite Hrun in Hrun'.
  destruct (run w (loginOrRegisterWithWebAuthn p) []) as [[c|e] tr'] eqn:Hc;
    cbn [fst snd bindR] in Hrun'; [|discriminate Hrun'].
  injection Hrun' as Hk Htr. subst tr'. symmetry in Hk.
  destruct (ceremony_success w p c tr Hc) as (_ & _ & _ & _ & _ & ev & Hev & Hret).
  destruct (keyOfCeremony_hash c k Hk) as (idBytes' & Hb' & Hh).
  assert (Hid : credId k = ceremonyCredId c).
  { unfold keyOfCeremony in Hk.
    destruct (BigInt (publicKeyX c)); [|discriminate Hk].
    destruct (BigInt (publicKeyY c)); [|discriminate Hk].
    destruct (b64ToBytes (ceremonyCredId c)); [|discriminate Hk].
    cbn [bindR] in Hk.
    destruct (keccak256 _); [|discriminate Hk].
    apply Ok_inj in Hk. rewrite <- Hk. reflexivity. }
  split; [exists ev; split; [exact Hev|now rewrite Hid]|].
  split.
  - intros w2 message.
    destruct (built_signMessage _ _ _ _ Hb) as (n & _ & ->).
    rewrite Hvp. apply signing_scoped.
  - intros idBytes Hbytes Hlen Hx Hy w2 past.
    rewrite Hbytes in Hb'. apply Ok_inj in Hb'. subst idBytes'.
    destruct (built_getEnableData _ _ _ _ Hb) as [He _].
    rewrite He, Hvp, Hh. now rewrite enableData_layout.
Qed.

End ValidatorsMore.

Lemma construction_calls_witness :
  calls (Double.world JNull 1)
    (ToPasskeyValidator.toPasskeyValidator (ext := Double.externals)
       Double.client Double.validatorParams)
  = [EvGetChainId Double.client (Ok 1)].
Proof.
  exact (proj1 (construction_calls (ext := Double.externals)
                  (Double.world JNull 1) Double.client Double.validatorParams
                  EmptyString EmptyString None)).
Defined.

Lemma nonce_key_witness :
  exists v v',
    built (ext := Double.externals) (Double.world JNull 1) Double.client
      Double.validatorParams v /\
    restored (ext := Double.externals) (Double.world JNull 5) Double.client
      (ToPasskeyValidator.getSerializedData v tt)
      "0x5FF137D4b0FDCD49DcA30c7CF57E578a026d2789" None v' /\
    run (Double.world JNull 1)
      (ToPasskeyValidator.getNonceKey v None (Some 7)) [] = (Ok 7, []) /\
    run (Double.world JNull 1)
      (ToPasskeyValidator.getNonceKey v' None (Some 7)) [] = (Ok 0, []).
Proof.
  do 2 eexists. split; [reflexivity|]. split; [reflexivity|].
  exact (nonce_key (ext := Double.externals)
           (Double.world JNull 1) Double.client Double.validatorParams _
           (Double.world JNull 5) Double.client
           (serializePasskeyValidatorData (Externals := Double.externals)
              (ToPasskeyValidator.serializedDataOf (ext := Double.externals)
                 Double.validatorParams))
           "0x5FF137D4b0FDCD49DcA30c7CF57E578a026d2789" None _
           eq_refl eq_refl None (Some 7) (Double.world JNull 1) []).
Defined.

Lemma restored_equivalence_witness :
  exists v v',
    built (ext := Double.externals) (Double.world JNull 1) Double.client
      Double.validatorParams v /\
    restored (ext := Double.externals) (Double.world JNull 5) Double.client
      (ToPasskeyValidator.getSerializedData v tt)
      "0x5FF137D4b0FDCD49DcA30c7CF57E578a026d2789" None v' /\
    ToPasskeyValidator.address v' = ToPasskeyValidator.address v.
Proof.
  do 2 eexists. split; [reflexivity|]. split; [reflexivity|].
  exact (proj1 (restored_equivalence (ext := Double.externals)
                  (Double.world JNull 1) Double.client Double.validatorParams _
                  (Double.world JNull 5) Double.client
                  "0x5FF137D4b0FDCD49DcA30c7CF57E578a026d2789" None _
                  eq_refl eq_refl eq_refl)).
Defined.

Lemma user_operation_signature_ignored_witness :
  exists v,
    built (ext := Double.externals) (Double.world JNull 1) Double.client
      Double.validatorParams v /\
    ToPasskeyValidator.signUserOperation v
      (JObj [("nonce", JNum 0); ("signature", JStr "0x01")])
    = ToPasskeyValidator.signUserOperation v
        (JObj [("nonce", JNum 0); ("signature", JStr "0x02")]).
Proof.
  eexists. split; [reflexivity|].
  exact (user_operation_signature_ignored (ext := Double.externals)
           (Double.world JNull 1) Double.client Double.validatorParams
           EmptyString EmptyString None _ [("nonce", JNum 0)] []
           (JStr "0x01") (JStr "0x02") (or_introl eq_refl)).
Defined.

Lemma validator_requests_scoped_witness :
  exists v v',
    built (ext := Double.externals) (Double.world JNull 1) Double.client
      Double.validatorParams v /\
    restored (ext := Double.externals) (Double.world JNull 5) Double.client
      (ToPasskeyValidator.getSerializedData v tt)
      "0x5FF137D4b0FDCD49DcA30c7CF57E578a026d2789" None v' /\
    only_scoped_requests "AQID" (Some (Injected "startAuthentication"))
      (calls (Double.world JNull 1)
         (ToPasskeyValidator.signMessage v (ToPasskeyValidator.MsgString "0x0102"))) /\
    only_scoped_requests "AQID" None
      (calls (Double.world JNull 1)
         (ToPasskeyValidator.signUserOperation v' (JObj []))).
Proof.
  do 2 eexists. split; [reflexivity|]. split; [reflexivity|].
  destruct (validator_requests_scoped (ext := Double.externals)
              (Double.world JNull 1) Double.client Double.validatorParams _
              (Double.world JNull 5) Double.client
              (serializePasskeyValidatorData (Externals := Double.externals)
              (ToPasskeyValidator.serializedDataOf (ext := Double.externals)
                 Double.validatorParams))
              "0x5FF137D4b0FDCD49DcA30c7CF57E578a026d2789" None _
              (ToPasskeyValidator.serializedDataOf (ext := Double.externals)
                 Double.validatorParams)
              (Double.world JNull 1) (ToPasskeyValidator.MsgString "0x0102")
              (JObj []) (JObj []) eq_refl eq_refl eq_refl)
    as ((H & _) & (_ & _ & H')).
  split; [exact H|exact H'].
Defined.

Lemma typed_data_signing_witness :
  exists v,
    built (ext := Double.externals) (Double.world JNull 1) Double.client
      Double.validatorParams v /\
    exists h,
      hashTypedData (Externals := Double.externals) (JObj []) = Ok h /\
      run (Double.world JNull 1)
        (ToPasskeyValidator.signTypedData v (JObj [])) []
      = run (Double.world JNull 1)
          (ToPasskeyValidator.signMessage v (ToPasskeyValidator.MsgString h)) [].
Proof.
  eexists. split; [reflexivity|].
  destruct (typed_data_signing (ext := Double.externals)
              (Double.world JNull 1) Double.client Double.validatorParams
              EmptyString EmptyString None _ (JObj []) (Double.world JNull 1)
              (or_introl eq_refl))
    as [[e He]|(d & m & t & ts & h & _ & _ & _ & _ & _ & Hh & Hrun)].
  - vm_compute in He. discriminate He.
  - exists h. split; [exact Hh|exact Hrun].
Defined.

Lemma user_operation_signing_witness :
  exists v v',
    built (ext := Double.externals) (Double.world JNull 1) Double.client
      Double.validatorParams v /\
    restored (ext := Double.externals) (Double.world JNull 5) Double.client
      (ToPasskeyValidator.getSerializedData v tt)
      "0x5FF137D4b0FDCD49DcA30c7CF57E578a026d2789" None v' /\
    exists n n',
      on_getChainId (Double.world JNull 1) [] Double.client = Ok n /\
      on_getChainId (Double.world JNull 5) [] Double.client = Ok n'.
Proof.
  do 2 eexists. split; [reflexivity|]. split; [reflexivity|].
  destruct (user_operation_signing (ext := Double.externals)
              (Double.world JNull 1) Double.client Double.validatorParams _
              (Double.world JNull 5) Double.client
              (serializePasskeyValidatorData (Externals := Double.externals)
              (ToPasskeyValidator.serializedDataOf (ext := Double.externals)
                 Double.validatorParams))
              "0x5FF137D4b0FDCD49DcA30c7CF57E578a026d2789" None _
              (JObj []) (Double.world JNull 1) eq_refl eq_refl)
    as (n & n' & Hn & Hn' & _).
  exists n, n'. split; [exact Hn|exact Hn'].
Defined.

Lemma enable_data_decodes_witness :
  exists e,
    ToPasskeyValidator.enableData 1 2
      (bytesToHex (Double.fold32 [x01; x02; x03])) = Ok e /\
    word_at 0 e = Ok 1 /\ word_at 1 e = Ok 2.
Proof.
  eexists. split; [vm_compute; reflexivity|].
  edestruct (enable_data_decodes 1 2 (Double.fold32 [x01; x02; x03]))
    as (_ & _ & W0 & W1 & _); [vm_compute; reflexivity|].
  split; [exact W0|exact W1].
Defined.

Lemma built_enable_data_witness :
  exists v,
    built (ext := Double.externals) (Double.world JNull 1) Double.client
      Double.validatorParams v /\
    run (Double.world JNull 1) (ToPasskeyValidator.getEnableData v tt) []
    = (Ok (bytesToHex (Abi.word 1 ++ Abi.word 2
                       ++ Double.fold32 [x01; x02; x03])), []).
Proof.
  eexists. split; [reflexivity|].
  refine (proj1 (built_enable_data (ext := Double.externals)
                   (Double.world JNull 1) Double.client Double.validatorParams
                   _ (Double.fold32 [x01; x02; x03]) eq_refl _)
            _ _ _ (Double.world JNull 1) []).
  - vm_compute. reflexivity.
  - vm_compute. split; congruence.
  - vm_compute. split; congruence.
  - reflexivity.
Defined.

Lemma login_to_validator_witness :
  exists ev,
    In ev (calls (Double.world Double.verifiedAnswer 1)
             (ToWebAuthnKey.toWebAuthnKey (ext := Double.externals)
                (Double.params ToWebAuthnKey.ModeLogin))) /\
    returned_id ev = Some "AQID".
Proof.
  refine (proj1 (login_to_validator (ext := Double.externals)
                   (Double.world Double.verifiedAnswer 1)
                   (Double.params ToWebAuthnKey.ModeLogin) Double.key _
                   (Double.world JNull 1) Double.client Double.validatorParams _
                   eq_refl _ eq_refl eq_refl)).
  vm_compute. reflexivity.
Defined.
